(** * CheckSessionService: the OpenID Connect check-session iframe monitor

    A shallow embedding of
    [projects/angular-auth-oidc-client/src/lib/iframe/check-session.service.ts].

    The service is a single injectable object with five mutable fields.  Its
    methods run to completion on the browser's event loop; between two of
    them the browser may fire a timer, finish loading the hidden iframe or
    deliver a [message] event.  The embedding keeps the fields in a record,
    the part of the browser the service touches in a second record, and
    writes every method as a computation in a small state-and-exception
    monad over the pair. *)

From Stdlib Require Import ZArith Lia Ascii String.
From stdpp Require Import base option list strings gmap.

Local Open Scope Z_scope.
Local Open Scope string_scope.

(** ** Data *)

(** [ConfigurationProvider.getOpenIDConfiguration] returns an object of
    which the service reads two properties. *)
Record OpenIdConfiguration := {
  startCheckSession : bool;
  clientId : string;
}.

(** The stored provider metadata; the service reads [checkSessionIframe]
    only.  [None] is JavaScript's [undefined]. *)
Record AuthWellKnownEndpoints := {
  checkSessionIframe : option string;
}.

(** Identity of a browsing context ([===] on window objects). *)
Inductive WindowRef :=
| TopWindow
| FrameWindow (identifier : string)
| ForeignWindow (n : nat).

#[global] Instance WindowRef_eq_dec : EqDecision WindowRef.
Proof. solve_decision. Defined.

(** The properties of a [MessageEvent] the handler reads.  A [source] of
    [None] is [null]. *)
Record MessageEvent := {
  origin : string;
  source : option WindowRef;
  data : string;
}.

(** The two kinds of value that reach the parameters of [messageHandler]:
    both are declared in the source as [e: any] and [configId: string],
    and TypeScript does not constrain what [bind] puts in them. *)
Inductive JsValue :=
| JsString (s : string)
| JsMessageEvent (m : MessageEvent).

(** Property reads; [None] is [undefined] (a string primitive has none of
    these properties) or [null]. *)
Definition get_origin (v : JsValue) : option string :=
  match v with JsMessageEvent m => Some (origin m) | JsString _ => None end.

Definition get_source (v : JsValue) : option WindowRef :=
  match v with JsMessageEvent m => source m | JsString _ => None end.

Definition get_data (v : JsValue) : option string :=
  match v with JsMessageEvent m => Some (data m) | JsString _ => None end.

(** [String(v)], used where a value is turned into a storage key. *)
Definition js_to_string (v : JsValue) : string :=
  match v with
  | JsString s => s
  | JsMessageEvent _ => "[object MessageEvent]"
  end.

(** Truthiness of a possibly-undefined string. *)
Definition truthy (s : option string) : bool :=
  match s with
  | Some s => negb (String.eqb s EmptyString)
  | None => false
  end.

(** [s.startsWith(search)]: the argument goes through [ToString], so
    [undefined] searches for the text "undefined". *)
Definition startsWith (s : string) (search : option string) : bool :=
  String.prefix (default "undefined" search) s.

(** The variables captured by the closure [pollServerSessionRecur]: the two
    parameters of [pollServerSession]. *)
Record Closure := {
  cl_clientId : string;
  cl_configId : string;
}.

Definition TimerHandle := positive.

Record Timer := {
  delay : Z;
  callback : Closure;
}.

(** The [onload] handler installed by [init]: it calls [observer.next()],
    which reaches the subscriber only until the subscription has ended. *)
Record LoadHandler := {
  subscriber : Closure;
  stopped : bool;
}.

Record IFrame := {
  contentWindow : WindowRef;
  location : option string;
  onload : option LoadHandler;
}.

Inductive LogLevel := LevelDebug | LevelWarning | LevelError.

#[global] Instance LogLevel_eq_dec : EqDecision LogLevel.
Proof. solve_decision. Defined.

(** One constructor for each logging call of the file. *)
Inductive LogMessage :=
| InitEndpointsUndefined
| InitIframeNotConfigured
| PollClientIdAndIframe (clientId : string) (existingIframe : bool)
| PollSessionStateMissing (sessionState : option string)
| PollIFrameDoesNotExist
| PollNotReceiving (outstanding : Z)
| HandlerError
| HandlerChanged
| HandlerOther (data : option string).

Record LogEntry := {
  level : LogLevel;
  logConfigId : JsValue;
  message : LogMessage;
}.

Record PostedMessage := {
  target : WindowRef;
  text : string;
  targetOrigin : string;
}.

Inductive JsError :=
| TypeError_InvalidURL (url : string).

(** The fields of [CheckSessionService].  [scheduledHeartBeatRunning] is
    [None] for [undefined] and [null]; a timer handle is a positive number,
    hence truthy.  [checkSessionChangedInternal] is the current value of
    the [BehaviorSubject]. *)
Record Service := {
  checkSessionReceived : bool;
  scheduledHeartBeatRunning : option TimerHandle;
  lastIFrameRefresh : Z;
  outstandingMessages : Z;
  checkSessionChangedInternal : bool;
}.

Definition heartBeatInterval : Z := 3000.
Definition iframeRefreshInterval : Z := 60000.
Definition IFRAME_FOR_CHECK_SESSION_IDENTIFIER : string := "myiFrameForCheckSession".

(** What the service sees and changes outside itself: its collaborators
    (configuration, storage, the frame host, the logger, the event service)
    and the browser (timers, listeners, posted messages). *)
Record Host := {
  config : string -> OpenIdConfiguration;
  storedEndpoints : gmap string AuthWellKnownEndpoints;
  storedSessionState : gmap string string;
  iframe : option IFrame;
  listeners : list string;
  timers : gmap TimerHandle Timer;
  nextHandle : TimerHandle;
  posted : list PostedMessage;
  logs : list LogEntry;
  firedEvents : list (option string);
  published : list bool;
  unhandled : list JsError;
}.

Record World := {
  svc : Service;
  host : Host;
}.

(** The platform's URL parser: [URL_origin s] is [new URL(s).origin], and
    [None] when the constructor throws. *)
Class Platform := {
  URL_origin : string -> option string;
}.

(** ** Field updates *)

Definition set_checkSessionReceived (b : bool) (s : Service) : Service :=
  {| checkSessionReceived := b;
     scheduledHeartBeatRunning := scheduledHeartBeatRunning s;
     lastIFrameRefresh := lastIFrameRefresh s;
     outstandingMessages := outstandingMessages s;
     checkSessionChangedInternal := checkSessionChangedInternal s |}.

Definition set_scheduledHeartBeatRunning (h : option TimerHandle) (s : Service) : Service :=
  {| checkSessionReceived := checkSessionReceived s;
     scheduledHeartBeatRunning := h;
     lastIFrameRefresh := lastIFrameRefresh s;
     outstandingMessages := outstandingMessages s;
     checkSessionChangedInternal := checkSessionChangedInternal s |}.

Definition set_lastIFrameRefresh (t : Z) (s : Service) : Service :=
  {| checkSessionReceived := checkSessionReceived s;
     scheduledHeartBeatRunning := scheduledHeartBeatRunning s;
     lastIFrameRefresh := t;
     outstandingMessages := outstandingMessages s;
     checkSessionChangedInternal := checkSessionChangedInternal s |}.

Definition set_outstandingMessages (n : Z) (s : Service) : Service :=
  {| checkSessionReceived := checkSessionReceived s;
     scheduledHeartBeatRunning := scheduledHeartBeatRunning s;
     lastIFrameRefresh := lastIFrameRefresh s;
     outstandingMessages := n;
     checkSessionChangedInternal := checkSessionChangedInternal s |}.

Definition set_checkSessionChangedInternal (b : bool) (s : Service) : Service :=
  {| checkSessionReceived := checkSessionReceived s;
     scheduledHeartBeatRunning := scheduledHeartBeatRunning s;
     lastIFrameRefresh := lastIFrameRefresh s;
     outstandingMessages := outstandingMessages s;
     checkSessionChangedInternal := b |}.

Definition set_iframe (f : option IFrame) (h : Host) : Host :=
  {| config := config h; storedEndpoints := storedEndpoints h;
     storedSessionState := storedSessionState h; iframe := f;
     listeners := listeners h; timers := timers h; nextHandle := nextHandle h;
     posted := posted h; logs := logs h; firedEvents := firedEvents h;
     published := published h; unhandled := unhandled h |}.

Definition set_listeners (l : list string) (h : Host) : Host :=
  {| config := config h; storedEndpoints := storedEndpoints h;
     storedSessionState := storedSessionState h; iframe := iframe h;
     listeners := l; timers := timers h; nextHandle := nextHandle h;
     posted := posted h; logs := logs h; firedEvents := firedEvents h;
     published := published h; unhandled := unhandled h |}.

Definition set_timers (t : gmap TimerHandle Timer) (n : TimerHandle) (h : Host) : Host :=
  {| config := config h; storedEndpoints := storedEndpoints h;
     storedSessionState := storedSessionState h; iframe := iframe h;
     listeners := listeners h; timers := t; nextHandle := n;
     posted := posted h; logs := logs h; firedEvents := firedEvents h;
     published := published h; unhandled := unhandled h |}.

Definition set_posted (p : list PostedMessage) (h : Host) : Host :=
  {| config := config h; storedEndpoints := storedEndpoints h;
     storedSessionState := storedSessionState h; iframe := iframe h;
     listeners := listeners h; timers := timers h; nextHandle := nextHandle h;
     posted := p; logs := logs h; firedEvents := firedEvents h;
     published := published h; unhandled := unhandled h |}.

Definition set_logs (l : list LogEntry) (h : Host) : Host :=
  {| config := config h; storedEndpoints := storedEndpoints h;
     storedSessionState := storedSessionState h; iframe := iframe h;
     listeners := listeners h; timers := timers h; nextHandle := nextHandle h;
     posted := posted h; logs := l; firedEvents := firedEvents h;
     published := published h; unhandled := unhandled h |}.

Definition set_firedEvents (l : list (option string)) (h : Host) : Host :=
  {| config := config h; storedEndpoints := storedEndpoints h;
     storedSessionState := storedSessionState h; iframe := iframe h;
     listeners := listeners h; timers := timers h; nextHandle := nextHandle h;
     posted := posted h; logs := logs h; firedEvents := l;
     published := published h; unhandled := unhandled h |}.

Definition set_published (l : list bool) (h : Host) : Host :=
  {| config := config h; storedEndpoints := storedEndpoints h;
     storedSessionState := storedSessionState h; iframe := iframe h;
     listeners := listeners h; timers := timers h; nextHandle := nextHandle h;
     posted := posted h; logs := logs h; firedEvents := firedEvents h;
     published := l; unhandled := unhandled h |}.

Definition set_unhandled (l : list JsError) (h : Host) : Host :=
  {| config := config h; storedEndpoints := storedEndpoints h;
     storedSessionState := storedSessionState h; iframe := iframe h;
     listeners := listeners h; timers := timers h; nextHandle := nextHandle h;
     posted := posted h; logs := logs h; firedEvents := firedEvents h;
     published := published h; unhandled := l |}.

Definition set_storage (e : gmap string AuthWellKnownEndpoints) (s : gmap string string)
    (h : Host) : Host :=
  {| config := config h; storedEndpoints := e;
     storedSessionState := s; iframe := iframe h;
     listeners := listeners h; timers := timers h; nextHandle := nextHandle h;
     posted := posted h; logs := logs h; firedEvents := firedEvents h;
     published := published h; unhandled := unhandled h |}.

(** ** The monad of method bodies

    A method reads and writes the world and either returns or throws. *)

Inductive Outcome (A : Type) :=
| Returned (a : A)
| Thrown (e : JsError).
Arguments Returned {A} a.
Arguments Thrown {A} e.

Definition M (A : Type) : Type := World -> Outcome A * World.

#[global] Instance M_ret : MRet M := fun A a w => (Returned a, w).

#[global] Instance M_bind : MBind M := fun A B k m w =>
  match m w with
  | (Returned a, w') => k a w'
  | (Thrown e, w') => (Thrown e, w')
  end.

Definition throw {A} (e : JsError) : M A := fun w => (Thrown e, w).

Definition gets {A} (f : World -> A) : M A := fun w => (Returned (f w), w).

Definition modify_svc (f : Service -> Service) : M unit := fun w =>
  (Returned tt, {| svc := f (svc w); host := host w |}).

Definition modify_host (f : Host -> Host) : M unit := fun w =>
  (Returned tt, {| svc := svc w; host := f (host w) |}).

(** The world a computation leaves behind. *)
Definition exec {A} (m : M A) (w : World) : World := snd (m w).

(** An exception that escapes a subscriber or an event listener does not
    reach the caller: the platform reports it as an unhandled error. *)
Definition reportUnhandled (m : M unit) : M unit := fun w =>
  match m w with
  | (Returned _, w') => (Returned tt, w')
  | (Thrown e, w') =>
      (Returned tt, {| svc := svc w'; host := set_unhandled (unhandled (host w') ++ [e]) (host w') |})
  end.

(** ** Collaborators

    The services injected into the constructor live in other files of the
    library; the browser is outside it.  Each is modelled by what the
    service can observe of it. *)

(** Modelled from the spec: [ConfigurationProvider.getOpenIDConfiguration]
    (ConfigRegistry, [getConfig(tenant)]), a lookup without side effects
    that answers for every identifier. *)
Definition getOpenIDConfiguration (configId : string) : M OpenIdConfiguration :=
  gets (fun w => config (host w) configId).

(** Modelled from the spec: [StoragePersistenceService.read] (StateStore,
    [read(key, tenant) -> value|absent]) for the key
    ['authWellKnownEndPoints'].  The store is keyed by strings; another
    value in the place of the identifier is used through [String(v)]. *)
Definition read_authWellKnownEndPoints (configId : JsValue) : M (option AuthWellKnownEndpoints) :=
  gets (fun w => storedEndpoints (host w) !! js_to_string configId).

(** Modelled from the spec: [StoragePersistenceService.read] for the key
    ['session_state']. *)
Definition read_session_state (configId : JsValue) : M (option string) :=
  gets (fun w => storedSessionState (host w) !! js_to_string configId).

(** Modelled from the spec: [LoggerService] (structured logging); a call
    appends one entry and does nothing else. *)
Definition log (l : LogLevel) (configId : JsValue) (msg : LogMessage) : M unit :=
  modify_host (fun h =>
    set_logs (logs h ++ [{| level := l; logConfigId := configId; message := msg |}]) h).

Definition logDebug := log LevelDebug.
Definition logWarning := log LevelWarning.
Definition logError := log LevelError.

(** Modelled from the spec: [PublicEventsService.fireEvent] (the domain
    event emitter, [emit("CheckSessionReceived", payload)]). *)
Definition fireEvent (payload : option string) : M unit :=
  modify_host (fun h => set_firedEvents (firedEvents h ++ [payload]) h).

(** [checkSessionChangedInternal$.next(b)]: the subject keeps [b] as its
    current value and hands it to its observers. *)
Definition checkSessionChangedInternal_next (b : bool) : M unit :=
  modify_svc (set_checkSessionChangedInternal b);;
  modify_host (fun h => set_published (published h ++ [b]) h).

(** Modelled from the spec: [IFrameService.addIFrameToWindowBody]
    (FrameHost, [createChannel]): inserts a hidden frame under the given
    identifier and returns it. *)
Definition addIFrameToWindowBody (identifier : string) : M IFrame :=
  let frame := {| contentWindow := FrameWindow identifier; location := None; onload := None |} in
  modify_host (set_iframe (Some frame));;
  mret frame.

Definition setTimeout (cl : Closure) (ms : Z) : M TimerHandle := fun w =>
  let h := nextHandle (host w) in
  (Returned h,
   {| svc := svc w;
      host := set_timers (<[h := {| delay := ms; callback := cl |}]> (timers (host w)))
                         (Pos.succ h) (host w) |}).

Definition clearTimeout (h : option TimerHandle) : M unit :=
  match h with
  | Some h => modify_host (fun x => set_timers (delete h (timers x)) (nextHandle x) x)
  | None => mret tt
  end.

Definition postMessage (w : WindowRef) (msg : string) (o : string) : M unit :=
  modify_host (fun h =>
    set_posted (posted h ++ [{| target := w; text := msg; targetOrigin := o |}]) h).

(** [new URL(s).origin] *)
Definition new_URL_origin `{Platform} (s : string) : M string :=
  match URL_origin s with
  | Some o => mret o
  | None => throw (TypeError_InvalidURL s)
  end.

(** ** The service *)

Definition isCheckSessionConfigured (configId : string) : M bool :=
  c ← getOpenIDConfiguration configId;
  mret (startCheckSession c).

Definition serverStateChanged (configId : string) : M bool :=
  c ← getOpenIDConfiguration configId;
  received ← gets (fun w => checkSessionReceived (svc w));
  mret (startCheckSession c && received).

(** [iFrameService.getExistingIFrame(IFRAME_FOR_CHECK_SESSION_IDENTIFIER)].
    Modelled from the spec: the lookup of [IFrameService] (FrameHost,
    [getExistingChannel]) finds the frame inserted under that identifier,
    if there is one. *)
Definition getExistingIframe : M (option IFrame) :=
  gets (fun w => iframe (host w)).

Definition clearScheduledHeartBeat : M unit :=
  h ← gets (fun w => scheduledHeartBeatRunning (svc w));
  clearTimeout h;;
  modify_svc (set_scheduledHeartBeatRunning None).

Definition stop : M unit :=
  h ← gets (fun w => scheduledHeartBeatRunning (svc w));
  if negb (bool_decide (is_Some h)) then mret tt
  else
    clearScheduledHeartBeat;;
    modify_svc (set_checkSessionReceived false).

Definition messageHandler (e configId : JsValue) : M unit :=
  existingIFrame ← getExistingIframe;
  authWellKnownEndPoints ← read_authWellKnownEndPoints configId;
  let startsWith :=
    match authWellKnownEndPoints ≫= checkSessionIframe with
    | Some url => startsWith url (get_origin e)
    | None => false
    end in
  modify_svc (set_outstandingMessages 0);;
  match existingIFrame with
  | Some frame =>
      if startsWith && bool_decide (get_source e = Some (contentWindow frame)) then
        if bool_decide (get_data e = Some "error") then
          logWarning configId HandlerError
        else if bool_decide (get_data e = Some "changed") then
          logDebug configId HandlerChanged;;
          modify_svc (set_checkSessionReceived true);;
          fireEvent (get_data e);;
          checkSessionChangedInternal_next true
        else
          fireEvent (get_data e);;
          logDebug configId (HandlerOther (get_data e))
      else mret tt
  | None => mret tt
  end.

(** [window.addEventListener('message', this.messageHandler.bind(this, configId))]:
    the listener is remembered by the argument [bind] fixed. *)
Definition bindMessageEventToIframe (configId : string) : M unit :=
  modify_host (fun h => set_listeners (listeners h ++ [configId]) h).

Definition getOrCreateIframe (configId : string) : M IFrame :=
  existingIframe ← getExistingIframe;
  match existingIframe with
  | None =>
      frame ← addIFrameToWindowBody IFRAME_FOR_CHECK_SESSION_IDENTIFIER;
      bindMessageEventToIframe configId;;
      mret frame
  | Some frame => mret frame
  end.

(** The three observables [init] can return. *)
Inductive Observable :=
| of_undefined
| of_nothing
| on_iframe_load.

(** [existingIframe.contentWindow.location.replace(url)] *)
Definition location_replace (url : string) : M unit :=
  modify_host (fun h =>
    set_iframe (f ← iframe h;
                Some {| contentWindow := contentWindow f; location := Some url;
                        onload := onload f |}) h).

Definition init (configId : string) (now : Z) : M Observable :=
  last ← gets (fun w => lastIFrameRefresh (svc w));
  if last + iframeRefreshInterval >? now then mret of_undefined
  else
    authWellKnownEndPoints ← read_authWellKnownEndPoints (JsString configId);
    match authWellKnownEndPoints with
    | None =>
        logWarning (JsString configId) InitEndpointsUndefined;;
        mret of_nothing
    | Some endpoints =>
        getOrCreateIframe configId;;
        (if truthy (checkSessionIframe endpoints)
         then location_replace (default EmptyString (checkSessionIframe endpoints))
         else logWarning (JsString configId) InitIframeNotConfigured);;
        mret on_iframe_load
    end.

(** The subscriber of [pollServerSessionRecur] (lines 105-140): what a tick
    does once the channel is reported ready. *)
Definition pollServerSessionNext `{Platform} (cl : Closure) : M unit :=
  let clientId := cl_clientId cl in
  let configId := JsString (cl_configId cl) in
  existingIframe ← getExistingIframe;
  match existingIframe with
  | Some frame =>
      if truthy (Some clientId) then
        logDebug configId (PollClientIdAndIframe clientId true);;
        sessionState ← read_session_state configId;
        authWellKnownEndPoints ← read_authWellKnownEndPoints configId;
        if truthy sessionState && truthy (authWellKnownEndPoints ≫= checkSessionIframe) then
          iframeOrigin ← new_URL_origin (default EmptyString (authWellKnownEndPoints ≫= checkSessionIframe));
          modify_svc (fun s => set_outstandingMessages (outstandingMessages s + 1) s);;
          postMessage (contentWindow frame) (clientId ++ " " ++ default EmptyString sessionState) iframeOrigin
        else
          logDebug configId (PollSessionStateMissing sessionState);;
          checkSessionChangedInternal_next true
      else
        logWarning configId PollIFrameDoesNotExist;;
        logDebug configId (PollClientIdAndIframe clientId true)
  | None =>
      logWarning configId PollIFrameDoesNotExist;;
      logDebug configId (PollClientIdAndIframe clientId false)
  end;;
  outstanding ← gets (fun w => outstandingMessages (svc w));
  (if outstanding >? 3 then logError configId (PollNotReceiving outstanding) else mret tt);;
  h ← setTimeout cl heartBeatInterval;
  modify_svc (set_scheduledHeartBeatRunning (Some h)).

(** [observable.pipe(take(1)).subscribe(...)] for the three observables. *)
Definition subscribe `{Platform} (o : Observable) (cl : Closure) : M unit :=
  match o with
  | of_undefined => reportUnhandled (pollServerSessionNext cl)
  | of_nothing => mret tt
  | on_iframe_load =>
      modify_host (fun h =>
        set_iframe (f ← iframe h;
                    Some {| contentWindow := contentWindow f; location := location f;
                            onload := Some {| subscriber := cl; stopped := false |} |}) h)
  end.

Definition pollServerSessionRecur `{Platform} (cl : Closure) (now : Z) : M unit :=
  o ← init (cl_configId cl) now;
  subscribe o cl.

Definition pollServerSession `{Platform} (clientId configId : string) (now : Z) : M unit :=
  modify_svc (set_outstandingMessages 0);;
  pollServerSessionRecur {| cl_clientId := clientId; cl_configId := configId |} now.

Definition start `{Platform} (configId : string) (now : Z) : M unit :=
  h ← gets (fun w => scheduledHeartBeatRunning (svc w));
  if bool_decide (is_Some h) then mret tt
  else
    c ← getOpenIDConfiguration configId;
    (* the call as the source writes it: [this.pollServerSession(configId, clientId)] *)
    pollServerSession configId (clientId c) now.

(** ** The event loop

    What the browser does between two calls of the host application. *)

(** A timeout expires: [zone.run(pollServerSessionRecur)]. *)
Definition timerFired `{Platform} (h : TimerHandle) (now : Z) : M unit :=
  pending ← gets (fun w => timers (host w) !! h);
  match pending with
  | Some t =>
      modify_host (fun x => set_timers (delete h (timers x)) (nextHandle x) x);;
      pollServerSessionRecur (callback t) now
  | None => mret tt
  end.

(** The iframe finishes loading: the [onload] handler of [init] runs. *)
Definition iframeLoaded `{Platform} (now : Z) : M unit :=
  frame ← getExistingIframe;
  match frame ≫= onload with
  | Some handler =>
      modify_svc (set_lastIFrameRefresh now);;
      if stopped handler then mret tt
      else
        modify_host (fun h =>
          set_iframe (f ← iframe h;
                      Some {| contentWindow := contentWindow f; location := location f;
                              onload := Some {| subscriber := subscriber handler;
                                                stopped := true |} |}) h);;
        reportUnhandled (pollServerSessionNext (subscriber handler))
  | None => mret tt
  end.

(** A [message] event reaches every listener [messageHandler.bind(this, configId)]:
    the bound argument comes first, the event second. *)
Fixpoint dispatchMessage (bound : list string) (m : MessageEvent) : M unit :=
  match bound with
  | [] => mret tt
  | configId :: rest =>
      reportUnhandled (messageHandler (JsString configId) (JsMessageEvent m));;
      dispatchMessage rest m
  end.

Definition messageReceived (m : MessageEvent) : M unit :=
  bound ← gets (fun w => listeners (host w));
  dispatchMessage bound m.

Inductive Event :=
| Call_start (configId : string) (now : Z)
| Call_stop
| TimerFired (h : TimerHandle) (now : Z)
| IframeLoaded (now : Z)
| MessageReceived (m : MessageEvent)
| StorageWritten (endpoints : gmap string AuthWellKnownEndpoints)
                 (sessionState : gmap string string).

Definition step `{Platform} (ev : Event) : M unit :=
  match ev with
  | Call_start configId now => start configId now
  | Call_stop => stop
  | TimerFired h now => timerFired h now
  | IframeLoaded now => iframeLoaded now
  | MessageReceived m => messageReceived m
  | StorageWritten e s => modify_host (set_storage e s)
  end.

Fixpoint run `{Platform} (evs : list Event) (w : World) : World :=
  match evs with
  | [] => w
  | ev :: rest => run rest (exec (step ev) w)
  end.

(** The service as its constructor leaves it, in a page without the iframe. *)
Definition newService : Service :=
  {| checkSessionReceived := false;
     scheduledHeartBeatRunning := None;
     lastIFrameRefresh := 0;
     outstandingMessages := 0;
     checkSessionChangedInternal := false |}.

Definition newWorld (cfg : string -> OpenIdConfiguration)
    (endpoints : gmap string AuthWellKnownEndpoints)
    (sessionState : gmap string string) : World :=
  {| svc := newService;
     host := {| config := cfg; storedEndpoints := endpoints;
                storedSessionState := sessionState; iframe := None;
                listeners := []; timers := ∅; nextHandle := 1%positive;
                posted := []; logs := []; firedEvents := [];
                published := []; unhandled := [] |} |}.

(** ** Notions used by the statements *)

(** Line 154: whether the stored check-session URL starts with the origin
    of [e]. *)
Definition originAccepted (e configId : JsValue) (w : World) : bool :=
  match (storedEndpoints (host w) !! js_to_string configId) ≫= checkSessionIframe with
  | Some url => startsWith url (get_origin e)
  | None => false
  end.

(** A message the handler trusts: the iframe exists, the origin is
    accepted and the source is the iframe's window. *)
Definition trusted (e configId : JsValue) (w : World) : bool :=
  match iframe (host w) with
  | Some frame =>
      originAccepted e configId w && bool_decide (get_source e = Some (contentWindow frame))
  | None => false
  end.

(** The stored values a tick of closure [cl] reads. *)
Definition tick_sessionState (cl : Closure) (w : World) : option string :=
  storedSessionState (host w) !! cl_configId cl.

Definition tick_checkSessionIframe (cl : Closure) (w : World) : option string :=
  (storedEndpoints (host w) !! cl_configId cl) ≫= checkSessionIframe.

(** A tick of [cl] would send a probe: lines 107 and 112. *)
Definition sendsProbe (cl : Closure) (w : World) : bool :=
  bool_decide (is_Some (iframe (host w))) && truthy (Some (cl_clientId cl))
  && truthy (tick_sessionState cl w) && truthy (tick_checkSessionIframe cl w).

Definition isError (entry : LogEntry) : bool :=
  match level entry with
  | LevelError => true
  | _ => false
  end.

(** The number of [logError] calls so far. *)
Definition errorsLogged (w : World) : nat :=
  length (List.filter isError (logs (host w))).

(** [n] ticks of the same loop whose channel-ready signal fired, with no
    message handled in between. *)
Fixpoint ticks `{Platform} (cl : Closure) (n : nat) (w : World) : World :=
  match n with
  | O => w
  | S k => exec (pollServerSessionNext cl) (ticks cl k w)
  end.

(** The world after the handler has acted on a trusted "changed"
    (lines 160-163 after line 155). *)
Definition afterChanged (configId : JsValue) (w : World) : World :=
  {| svc := set_checkSessionChangedInternal true
              (set_checkSessionReceived true (set_outstandingMessages 0 (svc w)));
     host := set_published (published (host w) ++ [true])
               (set_firedEvents (firedEvents (host w) ++ [Some "changed"])
                  (set_logs (logs (host w) ++
                               [{| level := LevelDebug; logConfigId := configId;
                                   message := HandlerChanged |}]) (host w))) |}.

(** The world with the timer [h] taken off the pending timers, as when it
    fires. *)
Definition without_timer (h : TimerHandle) (w : World) : World :=
  {| svc := svc w;
     host := set_timers (delete h (timers (host w))) (nextHandle (host w)) (host w) |}.

Definition with_scheduledHeartBeatRunning (h : option TimerHandle) (w : World) : World :=
  {| svc := set_scheduledHeartBeatRunning h (svc w); host := host w |}.

Definition with_outstandingMessages (n : Z) (w : World) : World :=
  {| svc := set_outstandingMessages n (svc w); host := host w |}.

(** ** A concrete platform and the scenarios *)

Fixpoint authority (s : string) : string :=
  match s with
  | EmptyString => EmptyString
  | String c rest =>
      if (Ascii.eqb c "/"%char || Ascii.eqb c "?"%char || Ascii.eqb c "#"%char)%bool then EmptyString
      else String c (authority rest)
  end.

(** A stand-in for [new URL(s).origin] on the URLs of the scenarios:
    [scheme://authority] of a string of the shape
    [scheme://authority/...] with a scheme that is not empty; every other
    string is rejected.  It does not fold case, drop default ports or
    user information, nor know the schemes without an origin; the
    theorems are stated for every [Platform] and do not rest on it. *)
Definition origin_of_absolute_URL (s : string) : option string :=
  match index 0 "://" s with
  | Some (S n') =>
      let n := S n' in
      let a := authority (substring (n + 3) (String.length s - (n + 3)) s) in
      if String.eqb a EmptyString then None
      else Some (substring 0 n s ++ "://" ++ a)
  | Some O => None
  | None => None
  end.

Definition browser : Platform := {| URL_origin := origin_of_absolute_URL |}.

Definition checkSessionFrame : WindowRef := FrameWindow IFRAME_FOR_CHECK_SESSION_IDENTIFIER.

(** Tenant "t1" (and "t2") with [startCheckSession] set and client
    identifier "abc". *)
Definition scenarioConfig (configId : string) : OpenIdConfiguration :=
  if String.eqb configId "t1" then {| startCheckSession := true; clientId := "abc" |}
  else if String.eqb configId "t2" then {| startCheckSession := true; clientId := "abc" |}
  else {| startCheckSession := false; clientId := EmptyString |}.

Definition idpEndpoints : AuthWellKnownEndpoints :=
  {| checkSessionIframe := Some "https://idp.example/check" |}.

(** The storage holds the tenant's data under the tenant's identifier. *)
Definition scenarioWorld : World :=
  newWorld scenarioConfig {[ "t1" := idpEndpoints ]} {[ "t1" := "s1" ]}.

(** The same data is also found under the client identifier. *)
Definition scenarioWorld_bothKeys : World :=
  newWorld scenarioConfig
    {[ "t1" := idpEndpoints; "abc" := idpEndpoints ]}
    {[ "t1" := "s1"; "abc" := "s1" ]}.

(** Endpoints known, no session-state token stored yet. *)
Definition scenarioWorld_noSessionState : World :=
  newWorld scenarioConfig {[ "t1" := idpEndpoints; "abc" := idpEndpoints ]} ∅.

(** Nothing stored at all. *)
Definition scenarioWorld_noStorage : World :=
  newWorld scenarioConfig ∅ ∅.

Definition changedFromIdp : MessageEvent :=
  {| origin := "https://idp.example"; source := Some checkSessionFrame; data := "changed" |}.

Definition changedFromElsewhere : MessageEvent :=
  {| origin := "https://evil.example"; source := Some (ForeignWindow 7); data := "changed" |}.

(** The closure [start("t1")] builds, and the iframe as [init] leaves it:
    first waiting for the load event, then loaded. *)
Definition scenarioClosure : Closure :=
  {| cl_clientId := "t1"; cl_configId := "abc" |}.

Definition frame_waiting : IFrame :=
  {| contentWindow := checkSessionFrame;
     location := Some "https://idp.example/check";
     onload := Some {| subscriber := scenarioClosure; stopped := false |} |}.

Definition frame_loaded : IFrame :=
  {| contentWindow := checkSessionFrame;
     location := Some "https://idp.example/check";
     onload := Some {| subscriber := scenarioClosure; stopped := true |} |}.

(** [start("t1")] has been called and the iframe is still loading. *)
Definition world_waiting : World :=
  @run browser [Call_start "t1" 1000000] scenarioWorld_bothKeys.

(** The iframe has loaded and the first tick has run. *)
Definition world_running : World :=
  @run browser [Call_start "t1" 1000000; IframeLoaded 1000100] scenarioWorld_bothKeys.

(** The same two steps without a stored session state. *)
Definition world_waiting_noSessionState : World :=
  @run browser [Call_start "t1" 1000000] scenarioWorld_noSessionState.

Definition world_running_noSessionState : World :=
  @run browser [Call_start "t1" 1000000; IframeLoaded 1000100] scenarioWorld_noSessionState.

(** [stop()] after the first tick. *)
Definition world_stopped : World :=
  @run browser [Call_start "t1" 1000000; IframeLoaded 1000100; Call_stop]
    scenarioWorld_bothKeys.

(** Without a session state the first tick publishes [true]; then [stop()],
    and the login flow stores a session state. *)
Definition world_stopped_after_publishing : World :=
  @run browser
    [Call_start "t1" 1000000; IframeLoaded 1000100; Call_stop;
     StorageWritten {[ "t1" := idpEndpoints; "abc" := idpEndpoints ]}
                    {[ "t1" := "s1"; "abc" := "s1" ]}]
    scenarioWorld_noSessionState.

(** ** Further notions and scenarios *)

(** One [message] listener for the one iframe: none while there is no
    iframe, one from the moment [getOrCreateIframe] has created it. *)
Definition listenersMatchFrame (w : World) : Prop :=
  length (listeners (host w)) =
  match iframe (host w) with
  | Some _ => 1%nat
  | None => 0%nat
  end.

(** What every event keeps, from the world before it to the world after:
    a [checkSessionReceived] that is not set stays so, a change stream at
    [true] stays there, the stream grows by [true]s only, the listener
    count stays in step with the iframe, and the configuration stays. *)
Definition keeps (w w' : World) : Prop :=
  (checkSessionReceived (svc w) = false -> checkSessionReceived (svc w') = false) /\
  (checkSessionChangedInternal (svc w) = true ->
   checkSessionChangedInternal (svc w') = true) /\
  (exists l, published (host w') = (published (host w) ++ l)%list /\ Forall (eq true) l) /\
  (listenersMatchFrame w -> listenersMatchFrame w') /\
  config (host w') = config (host w).

(** A tick is waiting for the iframe's load event: the load handler is
    installed and its subscription is still open. *)
Definition pendingLoad (w : World) : bool :=
  match iframe (host w) ≫= onload with
  | Some handler => negb (stopped handler)
  | None => false
  end.

(** At most one heartbeat loop, at the time [clock]: a tick that waits for
    the load event does so past the refresh window and with no timer
    pending; and a pending timer is the only one and is the one whose
    handle the service has recorded. *)
Definition oneLoop (clock : Z) (w : World) : Prop :=
  (pendingLoad w = true ->
   timers (host w) = ∅ /\ lastIFrameRefresh (svc w) + iframeRefreshInterval <= clock) /\
  (timers (host w) = ∅ \/
   exists h t, timers (host w) = {[ h := t ]} /\ scheduledHeartBeatRunning (svc w) = Some h).

(** The reading of [Date.now()] an event comes with. *)
Definition eventTime (ev : Event) : option Z :=
  match ev with
  | Call_start _ now => Some now
  | TimerFired _ now => Some now
  | IframeLoaded now => Some now
  | Call_stop | MessageReceived _ | StorageWritten _ _ => None
  end.

(** The clock does not run backwards along the events. *)
Fixpoint chronological (clock : Z) (evs : list Event) : Prop :=
  match evs with
  | [] => True
  | ev :: rest =>
      match eventTime ev with
      | Some now => clock <= now /\ chronological now rest
      | None => chronological clock rest
      end
  end.

Definition with_lastIFrameRefresh (t : Z) (w : World) : World :=
  {| svc := set_lastIFrameRefresh t (svc w); host := host w |}.

Definition with_log (l : LogLevel) (configId : JsValue) (msg : LogMessage) (w : World) : World :=
  {| svc := svc w;
     host := set_logs (logs (host w) ++
                         [{| level := l; logConfigId := configId; message := msg |}])
               (host w) |}.

Definition errorFromIdp : MessageEvent :=
  {| origin := "https://idp.example"; source := Some checkSessionFrame; data := "error" |}.

Definition unchangedFromIdp : MessageEvent :=
  {| origin := "https://idp.example"; source := Some checkSessionFrame; data := "unchanged" |}.

(** The first timer has fired after the refresh window has elapsed: the
    tick waits for the iframe to load again. *)
Definition world_reloading : World :=
  @run browser
    [Call_start "t1" 1000000; IframeLoaded 1000100; TimerFired 1%positive 1070000]
    scenarioWorld_bothKeys.

(** The stored check-session URL is not one the URL constructor accepts. *)
Definition scenarioWorld_badURL : World :=
  newWorld scenarioConfig
    {[ "abc" := {| checkSessionIframe := Some "idp.example" |} ]}
    {[ "abc" := "s1" ]}.

(** The iframe has loaded all the same; the first tick has thrown. *)
Definition world_loaded_badURL : World :=
  @run browser [Call_start "t1" 1000000; IframeLoaded 1000100] scenarioWorld_badURL.

(** ** The heartbeat as the browser drives it *)

(** A heartbeat loop of [cl] is running and sends probes: the timer of the
    recorded handle is pending for [cl], no load event is awaited, and a
    tick of [cl] finds the iframe, a client identifier, a session state
    and a check-session URL that the URL constructor accepts. *)
Definition looping `{Platform} (cl : Closure) (w : World) : Prop :=
  (exists h,
     scheduledHeartBeatRunning (svc w) = Some h /\
     timers (host w) !! h = Some {| delay := heartBeatInterval; callback := cl |}) /\
  pendingLoad w = false /\
  sendsProbe cl w = true /\
  is_Some (URL_origin (default EmptyString (tick_checkSessionIframe cl w))).

(** One beat: the recorded timer fires at the first of the two times; if
    its tick has sent the iframe to reload, the load event follows at the
    second. *)
Definition beat `{Platform} (times : Z * Z) (w : World) : World :=
  match scheduledHeartBeatRunning (svc w) with
  | Some h =>
      let w1 := exec (step (TimerFired h (fst times))) w in
      if pendingLoad w1 then exec (step (IframeLoaded (snd times))) w1 else w1
  | None => w
  end.

(** The first beat: [start] is called at the first of the two times; if
    its tick has sent the iframe to load, the load event follows at the
    second. *)
Definition firstBeat `{Platform} (configId : string) (times : Z * Z) (w : World) : World :=
  let w1 := exec (step (Call_start configId (fst times))) w in
  if pendingLoad w1 then exec (step (IframeLoaded (snd times))) w1 else w1.

(** Beats one after the other, with no other event in between. *)
Definition beats `{Platform} (schedule : list (Z * Z)) (w : World) : World :=
  fold_left (fun w0 times => beat times w0) schedule w.

(** * Properties *)

Ltac unfold_monad :=
  unfold mbind, M_bind, mret, M_ret, gets, modify_svc, modify_host, throw, exec in *.

Ltac case_if :=
  match goal with
  | |- context [if ?b then _ else _] => destruct b eqn:?
  end.

Ltac unfold_collaborators :=
  unfold logDebug, logWarning, logError, log, fireEvent, checkSessionChangedInternal_next,
    getExistingIframe, read_authWellKnownEndPoints, read_session_state,
    getOpenIDConfiguration, postMessage in *.

(** ** The message handler *)

Section MessageHandler.

Variables (e configId : JsValue) (w : World).

(** A message that is not trusted changes the counter and nothing else. *)
Lemma messageHandler_untrusted :
  trusted e configId w = false ->
  messageHandler e configId w = (Returned tt, with_outstandingMessages 0 w).
Proof.
  unfold trusted, originAccepted, messageHandler, with_outstandingMessages.
  unfold_collaborators; unfold_monad; cbn.
  destruct (iframe (host w)) as [frame|]; [|reflexivity].
  intros ->. reflexivity.
Qed.

Lemma messageHandler_changed :
  trusted e configId w = true ->
  get_data e = Some "changed" ->
  messageHandler e configId w = (Returned tt, afterChanged configId w).
Proof.
  unfold trusted, originAccepted, messageHandler, afterChanged.
  unfold_collaborators; unfold_monad; cbn.
  destruct (iframe (host w)) as [frame|]; [|discriminate].
  intros -> ->. reflexivity.
Qed.

(** The handler neither reads nor writes the timer handle. *)
Lemma messageHandler_scheduledHeartBeatRunning (h : option TimerHandle) :
  messageHandler e configId (with_scheduledHeartBeatRunning h w) =
  (fst (messageHandler e configId w),
   with_scheduledHeartBeatRunning h (snd (messageHandler e configId w))).
Proof.
  unfold messageHandler, with_scheduledHeartBeatRunning.
  unfold_collaborators; unfold_monad; cbn.
  destruct (iframe (host w)) as [frame|]; [|reflexivity].
  destruct (_ && _); [|reflexivity].
  repeat (case_bool_decide; try reflexivity).
Qed.

End MessageHandler.

(** ** One tick, once the channel is ready *)

Section Tick.

Context `{Platform}.
Variables (cl : Closure) (w : World).

Let h := nextHandle (host w).
Let next := {| delay := heartBeatInterval; callback := cl |}.

(** Whatever the tick did before, if it gets to line 137 it arms a new
    timer and records its handle; it fails to get there only when the
    URL constructor throws on the stored endpoint. *)
Lemma pollServerSessionNext_outcome :
  match pollServerSessionNext cl w with
  | (Returned _, w') =>
      scheduledHeartBeatRunning (svc w') = Some h /\
      timers (host w') = <[h := next]> (timers (host w)) /\
      nextHandle (host w') = Pos.succ h
  | (Thrown _, w') =>
      sendsProbe cl w = true /\
      URL_origin (default EmptyString (tick_checkSessionIframe cl w)) = None /\
      svc w' = svc w /\ timers (host w') = timers (host w) /\
      posted (host w') = posted (host w)
  end.
Proof.
  unfold pollServerSessionNext, sendsProbe, tick_sessionState, tick_checkSessionIframe,
    new_URL_origin, setTimeout.
  unfold_collaborators; unfold_monad; cbn.
  destruct (iframe (host w)) as [frame|]; cbn;
    repeat (case_if; cbn);
    try (destruct (URL_origin _) eqn:Horigin; cbn; repeat (case_if; cbn));
    repeat split; auto.
Qed.

(** The parts of the world no tick touches. *)
Lemma pollServerSessionNext_frame :
  let w' := exec (pollServerSessionNext cl) w in
  checkSessionReceived (svc w') = checkSessionReceived (svc w) /\
  lastIFrameRefresh (svc w') = lastIFrameRefresh (svc w) /\
  iframe (host w') = iframe (host w) /\
  storedEndpoints (host w') = storedEndpoints (host w) /\
  storedSessionState (host w') = storedSessionState (host w) /\
  config (host w') = config (host w) /\
  listeners (host w') = listeners (host w) /\
  firedEvents (host w') = firedEvents (host w) /\
  unhandled (host w') = unhandled (host w) /\
  (checkSessionChangedInternal (svc w) = true ->
   checkSessionChangedInternal (svc w') = true) /\
  (outstandingMessages (svc w') = outstandingMessages (svc w) \/
   outstandingMessages (svc w') = outstandingMessages (svc w) + 1).
Proof.
  unfold pollServerSessionNext, new_URL_origin, setTimeout.
  unfold_collaborators; unfold_monad; cbn.
  destruct (iframe (host w)) as [frame|] eqn:Hframe; cbn;
    repeat (case_if; cbn);
    try (destruct (URL_origin _) eqn:Horigin; cbn; repeat (case_if; cbn));
    repeat split; auto.
Qed.

(** A tick that sends a probe. *)
Lemma pollServerSessionNext_probe (frame : IFrame) (o : string) :
  iframe (host w) = Some frame ->
  sendsProbe cl w = true ->
  URL_origin (default EmptyString (tick_checkSessionIframe cl w)) = Some o ->
  let w' := exec (pollServerSessionNext cl) w in
  fst (pollServerSessionNext cl w) = Returned tt /\
  outstandingMessages (svc w') = outstandingMessages (svc w) + 1 /\
  posted (host w') =
    (posted (host w) ++
     [{| target := contentWindow frame;
         text := cl_clientId cl +:+ " " +:+ default EmptyString (tick_sessionState cl w);
         targetOrigin := o |}])%list /\
  checkSessionChangedInternal (svc w') = checkSessionChangedInternal (svc w) /\
  published (host w') = published (host w) /\
  errorsLogged w' =
    (errorsLogged w + if outstandingMessages (svc w) + 1 >? 3 then 1 else 0)%nat.
Proof.
  unfold sendsProbe, tick_sessionState, tick_checkSessionIframe, errorsLogged.
  intros Hframe Hsend Horigin.
  rewrite Hframe in Hsend. cbn in Hsend.
  apply andb_prop in Hsend as [Hsend Hurl].
  apply andb_prop in Hsend as [Hclient Hstate].
  unfold pollServerSessionNext, new_URL_origin, setTimeout.
  unfold_collaborators; unfold_monad; cbn.
  rewrite Hframe; cbn. cbn in Hclient. rewrite Hclient, Hstate, Hurl; cbn.
  rewrite Horigin; cbn.
  case_if; cbn; repeat split; auto;
    rewrite !List.filter_app, !length_app; cbn; lia.
Qed.

(** A tick that finds the channel and a client identifier but not the
    session state, or not the check-session URL. *)
Lemma pollServerSessionNext_no_data (frame : IFrame) :
  iframe (host w) = Some frame ->
  truthy (Some (cl_clientId cl)) = true ->
  truthy (tick_sessionState cl w) && truthy (tick_checkSessionIframe cl w) = false ->
  let w' := exec (pollServerSessionNext cl) w in
  fst (pollServerSessionNext cl w) = Returned tt /\
  checkSessionChangedInternal (svc w') = true /\
  published (host w') = (published (host w) ++ [true])%list /\
  outstandingMessages (svc w') = outstandingMessages (svc w) /\
  posted (host w') = posted (host w) /\
  In {| level := LevelDebug; logConfigId := JsString (cl_configId cl);
        message := PollSessionStateMissing (tick_sessionState cl w) |}
     (logs (host w')).
Proof.
  unfold tick_sessionState, tick_checkSessionIframe.
  intros Hframe Hclient Hmissing.
  unfold pollServerSessionNext, new_URL_origin, setTimeout.
  unfold_collaborators; unfold_monad; cbn.
  rewrite Hframe; cbn. cbn in Hclient. rewrite Hclient, Hmissing; cbn.
  case_if; cbn; repeat split; auto;
    rewrite !in_app_iff; cbn; auto.
Qed.

(** The error of line 130 is logged by a tick exactly when the counter it
    leaves behind exceeds 3, and then once. *)
Lemma pollServerSessionNext_errors :
  match pollServerSessionNext cl w with
  | (Returned _, w') =>
      errorsLogged w' =
        (errorsLogged w + if outstandingMessages (svc w') >? 3 then 1 else 0)%nat
  | (Thrown _, w') => errorsLogged w' = errorsLogged w
  end.
Proof.
  unfold pollServerSessionNext, new_URL_origin, setTimeout, errorsLogged.
  unfold_collaborators; unfold_monad; cbn.
  destruct (iframe (host w)) as [frame|] eqn:Hframe; cbn;
    repeat (case_if; cbn);
    try (destruct (URL_origin _) eqn:Horigin; cbn; repeat (case_if; cbn));
    rewrite ?List.filter_app, ?length_app; cbn; lia.
Qed.

(** A tick that would send a probe to an endpoint the URL constructor
    rejects stops at line 113. *)
Lemma pollServerSessionNext_throws :
  sendsProbe cl w = true ->
  URL_origin (default EmptyString (tick_checkSessionIframe cl w)) = None ->
  exists err w', pollServerSessionNext cl w = (Thrown err, w').
Proof.
  unfold sendsProbe, tick_sessionState, tick_checkSessionIframe.
  intros Hsends Hnone.
  destruct (iframe (host w)) as [frame|] eqn:Hframe; [|discriminate].
  cbn in Hsends.
  apply andb_prop in Hsends as [Hsends Hurl].
  apply andb_prop in Hsends as [Hclient Hstate].
  unfold pollServerSessionNext, new_URL_origin, setTimeout.
  unfold_collaborators; unfold_monad; cbn.
  rewrite Hframe; cbn. rewrite Hclient, Hstate, Hurl; cbn.
  rewrite Hnone; cbn. eauto.
Qed.

End Tick.

(** ** [start] and [stop] *)

Section StartStop.

Context `{Platform}.
Variable w : World.

Lemma start_running (configId : string) (now : Z) (h : TimerHandle) :
  scheduledHeartBeatRunning (svc w) = Some h ->
  start configId now w = (Returned tt, w).
Proof.
  unfold start. unfold_monad. intros ->. reflexivity.
Qed.

Lemma start_not_running (configId : string) (now : Z) :
  scheduledHeartBeatRunning (svc w) = None ->
  start configId now w =
  pollServerSessionRecur
    {| cl_clientId := configId; cl_configId := clientId (config (host w) configId) |}
    now (with_outstandingMessages 0 w).
Proof.
  unfold start, pollServerSession, with_outstandingMessages.
  unfold_collaborators; unfold_monad. intros ->. reflexivity.
Qed.

Lemma stop_not_running :
  scheduledHeartBeatRunning (svc w) = None ->
  stop w = (Returned tt, w).
Proof.
  unfold stop. unfold_monad. intros ->. reflexivity.
Qed.

End StartStop.

(** ** The loop: [init], [subscribe] and the load event *)

Section Loop.

Context `{Platform}.
Variables (cl : Closure) (now : Z) (w : World).

Lemma reportUnhandled_returns (m : M unit) :
  fst (reportUnhandled m w) = Returned tt.
Proof. unfold reportUnhandled. destruct (m w) as [[[]|err] w']; reflexivity. Qed.

Lemma reportUnhandled_of_return (m : M unit) (w' : World) :
  m w = (Returned tt, w') -> reportUnhandled m w = (Returned tt, w').
Proof. unfold reportUnhandled. intros ->. reflexivity. Qed.

Lemma gtb_false (a b : Z) : a <= b -> (a >? b) = false.
Proof. intros Hle. rewrite Z.gtb_ltb. apply Z.ltb_ge. exact Hle. Qed.

Lemma gtb_true (a b : Z) : a > b -> (a >? b) = true.
Proof. intros Hgt. rewrite Z.gtb_ltb. apply Z.ltb_lt. lia. Qed.

(** Inside the refresh window the channel is reported ready at once. *)
Lemma pollServerSessionRecur_in_window :
  lastIFrameRefresh (svc w) + iframeRefreshInterval > now ->
  pollServerSessionRecur cl now w = reportUnhandled (pollServerSessionNext cl) w.
Proof.
  intros Hwindow. unfold pollServerSessionRecur, init, subscribe.
  unfold_monad; cbn. rewrite (gtb_true _ _ Hwindow). reflexivity.
Qed.

(** Line 79: without stored endpoints [init] returns the empty
    observable, and the subscriber is never called. *)
Lemma pollServerSessionRecur_no_endpoints :
  lastIFrameRefresh (svc w) + iframeRefreshInterval <= now ->
  storedEndpoints (host w) !! cl_configId cl = None ->
  pollServerSessionRecur cl now w =
  (Returned tt,
   {| svc := svc w;
      host := set_logs (logs (host w) ++
                          [{| level := LevelWarning; logConfigId := JsString (cl_configId cl);
                              message := InitEndpointsUndefined |}]) (host w) |}).
Proof.
  intros Hwindow Hnone. unfold pollServerSessionRecur, init, subscribe.
  unfold_collaborators; unfold_monad; cbn.
  rewrite (gtb_false _ _ Hwindow), Hnone. reflexivity.
Qed.

(** With stored endpoints the tick waits for the iframe to load. *)
Lemma pollServerSessionRecur_waits_for_load (endpoints : AuthWellKnownEndpoints) :
  lastIFrameRefresh (svc w) + iframeRefreshInterval <= now ->
  storedEndpoints (host w) !! cl_configId cl = Some endpoints ->
  let w' := exec (pollServerSessionRecur cl now) w in
  fst (pollServerSessionRecur cl now w) = Returned tt /\
  svc w' = svc w /\
  timers (host w') = timers (host w) /\
  nextHandle (host w') = nextHandle (host w) /\
  storedEndpoints (host w') = storedEndpoints (host w) /\
  storedSessionState (host w') = storedSessionState (host w) /\
  config (host w') = config (host w) /\
  unhandled (host w') = unhandled (host w) /\
  exists frame,
    iframe (host w') = Some frame /\
    onload frame = Some {| subscriber := cl; stopped := false |}.
Proof.
  intros Hwindow Hsome.
  unfold pollServerSessionRecur, init, subscribe, getOrCreateIframe, addIFrameToWindowBody,
    bindMessageEventToIframe, location_replace.
  unfold_collaborators; unfold_monad; cbn.
  rewrite (gtb_false _ _ Hwindow), Hsome.
  destruct (iframe (host w)) as [frame|] eqn:Hframe; cbn;
    destruct (truthy (checkSessionIframe endpoints)); cbn;
    try rewrite Hframe; cbn; repeat split; eauto.
Qed.

(** The load event hands over to the subscriber, once. *)
Lemma iframeLoaded_pending (frame : IFrame) (pending : Closure) :
  iframe (host w) = Some frame ->
  onload frame = Some {| subscriber := pending; stopped := false |} ->
  iframeLoaded now w =
  reportUnhandled (pollServerSessionNext pending)
    {| svc := set_lastIFrameRefresh now (svc w);
       host := set_iframe
                 (Some {| contentWindow := contentWindow frame; location := location frame;
                          onload := Some {| subscriber := pending; stopped := true |} |})
                 (host w) |}.
Proof.
  intros Hframe Hload. unfold iframeLoaded.
  unfold_collaborators; unfold_monad; cbn.
  rewrite Hframe; cbn. rewrite Hload; cbn. rewrite Hframe; cbn. reflexivity.
Qed.

(** A pending timer that fires starts the next tick. *)
Lemma timerFired_pending (h : TimerHandle) (t : Timer) :
  timers (host w) !! h = Some t ->
  timerFired h now w = pollServerSessionRecur (callback t) now (without_timer h w).
Proof.
  intros Hpending. unfold timerFired, without_timer.
  unfold_monad; cbn. rewrite Hpending. reflexivity.
Qed.

(** What no tick changes, from its start to the point where it waits or
    has rescheduled. *)
Lemma pollServerSessionRecur_frame :
  let w' := exec (pollServerSessionRecur cl now) w in
  checkSessionReceived (svc w') = checkSessionReceived (svc w) /\
  config (host w') = config (host w) /\
  (checkSessionChangedInternal (svc w) = true ->
   checkSessionChangedInternal (svc w') = true) /\
  (outstandingMessages (svc w') = outstandingMessages (svc w) \/
   outstandingMessages (svc w') = outstandingMessages (svc w) + 1).
Proof.
  cbn zeta.
  destruct (Z_gt_le_dec (lastIFrameRefresh (svc w) + iframeRefreshInterval) now)
    as [Hwindow|Hwindow].
  - unfold exec. rewrite (pollServerSessionRecur_in_window Hwindow).
    pose proof (pollServerSessionNext_frame cl w) as Hframe.
    unfold exec, reportUnhandled in *. cbn zeta in Hframe.
    destruct (pollServerSessionNext cl w) as [[[]|err] w']; cbn in *; tauto.
  - destruct (storedEndpoints (host w) !! cl_configId cl) as [endpoints|] eqn:Hstored.
    + destruct (pollServerSessionRecur_waits_for_load endpoints Hwindow Hstored)
        as (_ & Hsvc & _ & _ & _ & _ & Hconfig & _).
      rewrite Hsvc, Hconfig. auto.
    + unfold exec. rewrite (pollServerSessionRecur_no_endpoints Hwindow Hstored).
      cbn. auto.
Qed.

End Loop.

(** ** A tick that records no handle *)

Section NoHandle.

Context `{Platform}.
Variables (cl : Closure) (w : World).

(** A tick that ends without a recorded handle has left the service and
    the timers alone; inside the refresh window this only happens when the
    URL constructor threw. *)
Lemma pollServerSessionRecur_without_handle (now : Z) :
  let w' := exec (pollServerSessionRecur cl now) w in
  scheduledHeartBeatRunning (svc w') = None ->
  svc w' = svc w /\
  timers (host w') = timers (host w) /\
  storedEndpoints (host w') = storedEndpoints (host w) /\
  storedSessionState (host w') = storedSessionState (host w) /\
  config (host w') = config (host w) /\
  (lastIFrameRefresh (svc w) + iframeRefreshInterval > now ->
   sendsProbe cl w = true /\
   URL_origin (default EmptyString (tick_checkSessionIframe cl w)) = None /\
   iframe (host w') = iframe (host w)).
Proof.
  cbn zeta.
  destruct (Z_gt_le_dec (lastIFrameRefresh (svc w) + iframeRefreshInterval) now)
    as [Hwindow|Hwindow].
  - unfold exec. rewrite (pollServerSessionRecur_in_window cl now w Hwindow).
    pose proof (pollServerSessionNext_outcome cl w) as Hout.
    destruct (pollServerSessionNext_frame cl w)
      as (_ & _ & Hframe & Hendpoints & Hstate & Hconfig & _).
    unfold exec, reportUnhandled in *.
    destruct (pollServerSessionNext cl w) as [[[]|err] w']; cbn in *.
    + destruct Hout as (Hhandle & _). congruence.
    + destruct Hout as (Hsends & Hnone & Hsvc & Htimers & _). intros _.
      repeat split; assumption.
  - intros _.
    destruct (storedEndpoints (host w) !! cl_configId cl) as [endpoints|] eqn:Hstored.
    + destruct (pollServerSessionRecur_waits_for_load cl now w endpoints Hwindow Hstored)
        as (_ & Hsvc & Htimers & _ & Hendpoints & Hstate & Hconfig & _).
      repeat split; try assumption; lia.
    + unfold exec. rewrite (pollServerSessionRecur_no_endpoints cl now w Hwindow Hstored).
      cbn. repeat split; try reflexivity; lia.
Qed.

(** Running such a tick again changes neither the service nor the
    timers. *)
Lemma pollServerSessionRecur_again (now : Z) :
  (lastIFrameRefresh (svc w) + iframeRefreshInterval > now ->
   sendsProbe cl w = true /\
   URL_origin (default EmptyString (tick_checkSessionIframe cl w)) = None) ->
  let w' := exec (pollServerSessionRecur cl now) w in
  svc w' = svc w /\ timers (host w') = timers (host w).
Proof.
  intros Hthrows. cbn zeta.
  destruct (Z_gt_le_dec (lastIFrameRefresh (svc w) + iframeRefreshInterval) now)
    as [Hwindow|Hwindow].
  - destruct (Hthrows Hwindow) as [Hsends Hnone].
    unfold exec. rewrite (pollServerSessionRecur_in_window cl now w Hwindow).
    pose proof (pollServerSessionNext_outcome cl w) as Hout.
    destruct (pollServerSessionNext_throws cl w Hsends Hnone) as (err & w' & Hrun).
    unfold reportUnhandled. rewrite Hrun in *. cbn.
    destruct Hout as (_ & _ & Hsvc & Htimers & _). split; assumption.
  - destruct (storedEndpoints (host w) !! cl_configId cl) as [endpoints|] eqn:Hstored.
    + destruct (pollServerSessionRecur_waits_for_load cl now w endpoints Hwindow Hstored)
        as (_ & Hsvc & Htimers & _).
      split; assumption.
    + unfold exec. rewrite (pollServerSessionRecur_no_endpoints cl now w Hwindow Hstored).
      cbn. split; reflexivity.
Qed.

End NoHandle.

(** [start] twice in a row, with the clock not running backwards: the
    second call leaves the service and the timers as the first left them,
    whether or not the first got as far as recording a handle. *)
Lemma start_twice `{Platform} (configId : string) (now now' : Z) (w : World) :
  now <= now' ->
  let w1 := exec (start configId now) w in
  let w2 := exec (start configId now') w1 in
  svc w2 = svc w1 /\ timers (host w2) = timers (host w1).
Proof.
  intros Hclock. cbn zeta.
  destruct (scheduledHeartBeatRunning (svc (exec (start configId now) w)))
    as [h1|] eqn:Hafter.
  { set (w1 := exec (start configId now) w) in *.
    unfold exec. rewrite (start_running w1 configId now' h1 Hafter). auto. }
  destruct (scheduledHeartBeatRunning (svc w)) as [h|] eqn:Hbefore.
  { unfold exec in Hafter. rewrite (start_running w configId now h Hbefore) in Hafter.
    cbn in Hafter. congruence. }
  unfold exec in *.
  rewrite (start_not_running w configId now Hbefore) in *.
  set (cl := {| cl_clientId := configId;
                cl_configId := clientId (config (host w) configId) |}) in *.
  set (w0 := with_outstandingMessages 0 w) in *.
  destruct (pollServerSessionRecur_without_handle cl w0 now Hafter)
    as (Hsvc & Htimers & Hendpoints & Hstate & Hconfig & Hthrew).
  unfold exec in *.
  set (w1 := snd (pollServerSessionRecur cl now w0)) in *.
  rewrite (start_not_running w1 configId now' Hafter).
  assert (Hcl : {| cl_clientId := configId;
                   cl_configId := clientId (config (host w1) configId) |} = cl).
  { rewrite Hconfig. reflexivity. }
  rewrite Hcl.
  destruct (pollServerSessionRecur_again cl (with_outstandingMessages 0 w1) now')
    as (Hsvc' & Htimers').
  - cbn. rewrite Hsvc. cbn. intros Hwindow.
    destruct Hthrew as (Hsends & Hnone & Hframe); [cbn; lia|].
    unfold sendsProbe, tick_sessionState, tick_checkSessionIframe in *. cbn.
    rewrite Hframe, Hendpoints, Hstate. split; assumption.
  - unfold exec in *. rewrite Hsvc', Htimers'. cbn. rewrite Hsvc. cbn. auto.
Qed.

(** ** What the message handler does *)

(** C3, as the code has it: when the stored check-session URL does not
    start with the origin of the message, handling the message sets
    [outstandingMessages] to 0 and changes nothing else -- the flag
    [checkSessionReceived], the change stream, the events and the log are
    as before -- whatever the payload. *)
Theorem C3_other_origin_only_resets_outstandingMessages
    (e configId : JsValue) (w : World) :
  originAccepted e configId w = false ->
  messageHandler e configId w = (Returned tt, with_outstandingMessages 0 w).
Proof.
  intros Horigin. apply messageHandler_untrusted.
  unfold trusted. rewrite Horigin. destruct (iframe (host w)); reflexivity.
Qed.

(** ** What the heartbeat does *)

(** C1, as the code has it: in a tick that finds the iframe and a client
    identifier but no session state (or no check-session URL), the monitor
    logs the condition and publishes [true] on the change stream; it sends
    no probe, leaves [outstandingMessages] and [checkSessionReceived] as
    they were, and arms the next tick. *)
Theorem C1_tick_without_session_state_publishes_changed `{Platform}
    (cl : Closure) (w : World) (frame : IFrame) :
  iframe (host w) = Some frame ->
  truthy (Some (cl_clientId cl)) = true ->
  truthy (tick_sessionState cl w) && truthy (tick_checkSessionIframe cl w) = false ->
  let w' := exec (pollServerSessionNext cl) w in
  fst (pollServerSessionNext cl w) = Returned tt /\
  In {| level := LevelDebug; logConfigId := JsString (cl_configId cl);
        message := PollSessionStateMissing (tick_sessionState cl w) |}
     (logs (host w')) /\
  checkSessionChangedInternal (svc w') = true /\
  published (host w') = (published (host w) ++ [true])%list /\
  posted (host w') = posted (host w) /\
  outstandingMessages (svc w') = outstandingMessages (svc w) /\
  checkSessionReceived (svc w') = checkSessionReceived (svc w) /\
  scheduledHeartBeatRunning (svc w') = Some (nextHandle (host w)) /\
  timers (host w') !! nextHandle (host w) =
    Some {| delay := heartBeatInterval; callback := cl |}.
Proof.
  intros Hframe Hclient Hmissing. cbn zeta.
  destruct (pollServerSessionNext_no_data cl w frame Hframe Hclient Hmissing)
    as (Hret & Hchanged & Hpublished & Hcount & Hposted & Hlog).
  destruct (pollServerSessionNext_frame cl w) as (Hreceived & _).
  pose proof (pollServerSessionNext_outcome cl w) as Hout.
  unfold exec in *.
  destruct (pollServerSessionNext cl w) as [[[]|err] w']; [|discriminate Hret].
  destruct Hout as (Hhandle & Htimers & _). cbn in *.
  repeat split; try assumption.
  rewrite Htimers. apply lookup_insert_eq.
Qed.

(** C4, as the code has it.  A tick whose channel-ready signal fires arms
    the next tick after [heartBeatInterval], with or without a probe
    (unless the URL constructor throws on the stored endpoint); inside the
    refresh window the signal fires at once.  But when the window has
    elapsed and the stored well-known endpoints are absent, the tick logs
    one warning and that is all: no probe, no timer, nothing left that
    could fire the next tick. *)
Theorem C4_tick_reschedules_when_channel_ready `{Platform}
    (cl : Closure) (now : Z) (w : World) :
  ((sendsProbe cl w = true ->
    is_Some (URL_origin (default EmptyString (tick_checkSessionIframe cl w)))) ->
   exists w',
     pollServerSessionNext cl w = (Returned tt, w') /\
     scheduledHeartBeatRunning (svc w') = Some (nextHandle (host w)) /\
     timers (host w') !! nextHandle (host w) =
       Some {| delay := heartBeatInterval; callback := cl |}) /\
  (lastIFrameRefresh (svc w) + iframeRefreshInterval > now ->
   pollServerSessionRecur cl now w = reportUnhandled (pollServerSessionNext cl) w) /\
  (lastIFrameRefresh (svc w) + iframeRefreshInterval <= now ->
   storedEndpoints (host w) !! cl_configId cl = None ->
   let w' := exec (pollServerSessionRecur cl now) w in
   logs (host w') =
     (logs (host w) ++
      [{| level := LevelWarning; logConfigId := JsString (cl_configId cl);
          message := InitEndpointsUndefined |}])%list /\
   svc w' = svc w /\
   timers (host w') = timers (host w) /\
   iframe (host w') = iframe (host w) /\
   posted (host w') = posted (host w)).
Proof.
  split; [|split].
  - intros Hurl.
    pose proof (pollServerSessionNext_outcome cl w) as Hout.
    destruct (pollServerSessionNext cl w) as [[[]|err] w'].
    + exists w'. destruct Hout as (Hhandle & Htimers & _).
      repeat split; [assumption|]. rewrite Htimers. apply lookup_insert_eq.
    + destruct Hout as (Hsends & Hnone & _).
      destruct (Hurl Hsends) as [o Ho]. congruence.
  - apply pollServerSessionRecur_in_window.
  - intros Hwindow Hnone. cbn zeta. unfold exec.
    rewrite (pollServerSessionRecur_no_endpoints cl now w Hwindow Hnone).
    cbn. repeat split.
Qed.

(** C6, as the code has it: a fresh [start] sets [outstandingMessages] to 0
    and runs the first tick (so the counter is 0 or 1 when [start]
    returns).  It does not touch [checkSessionReceived], so
    [serverStateChanged] answers after [start] what it answered before;
    and it never takes the change stream back from [true]. *)
Theorem C6_start_resets_outstandingMessages_only `{Platform}
    (configId : string) (now : Z) (w : World) :
  scheduledHeartBeatRunning (svc w) = None ->
  let cl := {| cl_clientId := configId;
               cl_configId := clientId (config (host w) configId) |} in
  let w' := exec (start configId now) w in
  start configId now w = pollServerSessionRecur cl now (with_outstandingMessages 0 w) /\
  (outstandingMessages (svc w') = 0 \/ outstandingMessages (svc w') = 1) /\
  checkSessionReceived (svc w') = checkSessionReceived (svc w) /\
  (forall tenant, fst (serverStateChanged tenant w') = fst (serverStateChanged tenant w)) /\
  (checkSessionChangedInternal (svc w) = true ->
   checkSessionChangedInternal (svc w') = true).
Proof.
  intros Hidle. cbn zeta. unfold exec.
  rewrite (start_not_running w configId now Hidle).
  destruct (pollServerSessionRecur_frame
              {| cl_clientId := configId; cl_configId := clientId (config (host w) configId) |}
              now (with_outstandingMessages 0 w))
    as (Hreceived & Hconfig & Hchanged & Hcount).
  unfold exec in *. cbn in *.
  repeat split; try assumption.
  intros tenant. unfold serverStateChanged. unfold_collaborators; unfold_monad; cbn.
  rewrite Hreceived, Hconfig. reflexivity.
Qed.

(** C9: while a timer handle is recorded, a further [start] returns at
    line 45 and leaves the whole world -- counter, timers, flag -- as it
    is.  And for two calls of [start] in a row, the second leaves the
    service (counter, handle, flag) and the pending timers as the first
    left them, also when the first has not recorded its handle yet. *)
Theorem C9_start_is_idempotent_while_running `{Platform}
    (configId : string) (now now' : Z) (w : World) (h : TimerHandle) :
  scheduledHeartBeatRunning (svc w) = Some h ->
  start configId now w = (Returned tt, w) /\
  (forall w0 : World,
     now <= now' ->
     let w1 := exec (start configId now) w0 in
     let w2 := exec (start configId now') w1 in
     outstandingMessages (svc w2) = outstandingMessages (svc w1) /\
     scheduledHeartBeatRunning (svc w2) = scheduledHeartBeatRunning (svc w1) /\
     checkSessionReceived (svc w2) = checkSessionReceived (svc w1) /\
     timers (host w2) = timers (host w1)).
Proof.
  intros Hrunning. split.
  - eapply start_running; eassumption.
  - intros w0 Hclock. cbn zeta.
    destruct (start_twice configId now now' w0 Hclock) as [Hsvc Htimers].
    cbn zeta in Hsvc, Htimers. rewrite Hsvc, Htimers. auto.
Qed.

Section Unanswered.

Context `{Platform}.
Variables (cl : Closure) (w : World).

Lemma pollServerSessionNext_reads_same (other : Closure) (w0 : World) :
  let w' := exec (pollServerSessionNext other) w0 in
  sendsProbe cl w' = sendsProbe cl w0 /\
  tick_checkSessionIframe cl w' = tick_checkSessionIframe cl w0 /\
  tick_sessionState cl w' = tick_sessionState cl w0.
Proof.
  cbn zeta.
  destruct (pollServerSessionNext_frame other w0)
    as (_ & _ & Hframe & Hendpoints & Hstate & _).
  unfold sendsProbe, tick_checkSessionIframe, tick_sessionState.
  rewrite Hframe, Hendpoints, Hstate. auto.
Qed.

Hypothesis Hsends : sendsProbe cl w = true.
Hypothesis Hurl :
  is_Some (URL_origin (default EmptyString (tick_checkSessionIframe cl w))).
Hypothesis Hzero : outstandingMessages (svc w) = 0.

Lemma ticks_invariant (k : nat) :
  sendsProbe cl (ticks cl k w) = true /\
  tick_checkSessionIframe cl (ticks cl k w) = tick_checkSessionIframe cl w /\
  outstandingMessages (svc (ticks cl k w)) = Z.of_nat k /\
  unhandled (host (ticks cl k w)) = unhandled (host w).
Proof.
  induction k as [|k (IHsends & IHurl & IHcount & IHunhandled)].
  - cbn. auto.
  - cbn [ticks].
    destruct (pollServerSessionNext_reads_same cl (ticks cl k w)) as (Hs & Hu & _).
    destruct (pollServerSessionNext_frame cl (ticks cl k w))
      as (_ & _ & _ & _ & _ & _ & _ & _ & Hunhandled & _).
    cbn zeta in *. rewrite Hs, Hu, Hunhandled.
    repeat split; try assumption.
    assert (exists frame, iframe (host (ticks cl k w)) = Some frame) as [frame Hframe].
    { unfold sendsProbe in IHsends.
      destruct (iframe (host (ticks cl k w))) as [frame|]; [eauto|discriminate]. }
    destruct Hurl as [o Ho]. rewrite <- IHurl in Ho.
    destruct (pollServerSessionNext_probe cl (ticks cl k w) frame o Hframe IHsends Ho)
      as (_ & Hcount & _).
    rewrite Hcount, IHcount. lia.
Qed.

End Unanswered.

(** C10: [stop] looks at the recorded handle only, and the first tick of a
    [start] that has to load the iframe records none until the load event.
    So a [stop] between [start] and that event returns at line 54 with
    nothing changed, and the load event then runs the tick, which arms the
    timer of the next tick; when that timer fires, the next tick runs. *)
Theorem C10_stop_before_first_handle_leaves_loop_alive `{Platform}
    (configId : string) (now loaded : Z) (w : World) (endpoints : AuthWellKnownEndpoints) :
  let cl := {| cl_clientId := configId;
               cl_configId := clientId (config (host w) configId) |} in
  scheduledHeartBeatRunning (svc w) = None ->
  lastIFrameRefresh (svc w) + iframeRefreshInterval <= now ->
  storedEndpoints (host w) !! cl_configId cl = Some endpoints ->
  (forall url, checkSessionIframe endpoints = Some url -> is_Some (URL_origin url)) ->
  let w1 := exec (start configId now) w in
  let w2 := exec stop w1 in
  let w3 := exec (iframeLoaded loaded) w2 in
  scheduledHeartBeatRunning (svc w1) = None /\
  timers (host w1) = timers (host w) /\
  stop w1 = (Returned tt, w1) /\
  scheduledHeartBeatRunning (svc w3) = Some (nextHandle (host w)) /\
  timers (host w3) !! nextHandle (host w) =
    Some {| delay := heartBeatInterval; callback := cl |} /\
  (forall later,
     timerFired (nextHandle (host w)) later w3 =
     pollServerSessionRecur cl later (without_timer (nextHandle (host w)) w3)).
Proof.
  intros cl Hidle Hwindow Hstored Hurl. cbn zeta.
  cut (let w1 := exec (start configId now) w in
       let w3 := exec (iframeLoaded loaded) (exec stop w1) in
       scheduledHeartBeatRunning (svc w1) = None /\
       timers (host w1) = timers (host w) /\
       stop w1 = (Returned tt, w1) /\
       scheduledHeartBeatRunning (svc w3) = Some (nextHandle (host w)) /\
       timers (host w3) !! nextHandle (host w) =
         Some {| delay := heartBeatInterval; callback := cl |}).
  { cbn zeta. intros (H1 & H2 & H3 & H4 & H5). repeat split; try assumption.
    intros later. apply (timerFired_pending later _ _ _ H5). }
  cbn zeta.
  unfold exec. rewrite (start_not_running w configId now Hidle). fold cl.
  destruct (pollServerSessionRecur_waits_for_load cl now (with_outstandingMessages 0 w)
              endpoints Hwindow Hstored)
    as (_ & Hsvc & Htimers & Hnext & Hendpoints & Hstate & _ & _ & frame & Hframe & Hload).
  unfold exec in Hsvc, Htimers, Hnext, Hendpoints, Hstate, Hframe.
  set (w1 := snd (pollServerSessionRecur cl now (with_outstandingMessages 0 w))) in *.
  assert (Hidle1 : scheduledHeartBeatRunning (svc w1) = None)
    by (rewrite Hsvc; exact Hidle).
  rewrite (stop_not_running w1 Hidle1). cbn [snd].
  rewrite (iframeLoaded_pending loaded w1 frame cl Hframe Hload).
  set (w2 := {| svc := set_lastIFrameRefresh loaded (svc w1); host := _ |}).
  pose proof (pollServerSessionNext_outcome cl w2) as Hout.
  unfold reportUnhandled.
  destruct (pollServerSessionNext cl w2) as [[[]|err] w3].
  - destruct Hout as (Hhandle & Htimers3 & _). cbn [snd].
    subst w2; cbn in Hhandle, Htimers3. rewrite Hnext in Hhandle, Htimers3.
    repeat split; try assumption.
    rewrite Htimers3. apply lookup_insert_eq.
  - exfalso. destruct Hout as (Hsends & Hnone & _).
    unfold sendsProbe, tick_checkSessionIframe in Hsends, Hnone.
    subst w2; cbn in Hsends, Hnone. rewrite Hendpoints in Hsends, Hnone.
    cbn in Hsends, Hnone. unfold cl in Hstored. cbn in Hstored.
    rewrite Hstored in Hsends, Hnone. cbn in Hsends, Hnone.
    destruct (checkSessionIframe endpoints) as [url|] eqn:Hcheck.
    + destruct (Hurl url eq_refl) as [o Ho]. cbn in Hnone. congruence.
    + cbn in Hsends. rewrite andb_false_r in Hsends. discriminate.
Qed.

(** * Further properties of the service *)

(** ** [stop] *)

Section Stop.

Context `{Platform}.
Variable w : World.

Lemma stop_running_world (h : TimerHandle) :
  scheduledHeartBeatRunning (svc w) = Some h ->
  stop w =
  (Returned tt,
   {| svc := set_checkSessionReceived false (set_scheduledHeartBeatRunning None (svc w));
      host := set_timers (delete h (timers (host w))) (nextHandle (host w)) (host w) |}).
Proof.
  intros Hh. unfold stop, clearScheduledHeartBeat, clearTimeout.
  unfold_monad; cbn. rewrite Hh. cbn. rewrite Hh. reflexivity.
Qed.

End Stop.

(** [stop] with a recorded handle: the timer of that handle is cancelled
    (lines 147-148), the handle is cleared and [checkSessionReceived] is
    reset (line 58).  The counter, the refresh time, the change stream,
    the iframe and the listener stay; the cancelled timer no longer fires
    a tick. *)
Theorem stop_cancels_the_recorded_timer `{Platform} (w : World) (h : TimerHandle) :
  scheduledHeartBeatRunning (svc w) = Some h ->
  let w' := exec stop w in
  fst (stop w) = Returned tt /\
  scheduledHeartBeatRunning (svc w') = None /\
  checkSessionReceived (svc w') = false /\
  timers (host w') = delete h (timers (host w)) /\
  outstandingMessages (svc w') = outstandingMessages (svc w) /\
  lastIFrameRefresh (svc w') = lastIFrameRefresh (svc w) /\
  checkSessionChangedInternal (svc w') = checkSessionChangedInternal (svc w) /\
  published (host w') = published (host w) /\
  iframe (host w') = iframe (host w) /\
  listeners (host w') = listeners (host w) /\
  (forall now, timerFired h now w' = (Returned tt, w')).
Proof.
  intros Hh. cbn zeta. unfold exec. rewrite (stop_running_world w h Hh). cbn.
  repeat split.
  intros now. unfold timerFired. unfold_monad; cbn.
  rewrite lookup_delete_eq. reflexivity.
Qed.

(** [stop] twice is [stop] once: the second call finds no handle and
    returns at line 54. *)
Theorem stop_is_idempotent (w : World) :
  stop (exec stop w) = (Returned tt, exec stop w).
Proof.
  apply stop_not_running.
  destruct (scheduledHeartBeatRunning (svc w)) as [h|] eqn:Hh.
  - unfold exec. rewrite (stop_running_world w h Hh). reflexivity.
  - unfold exec. rewrite (stop_not_running w Hh). exact Hh.
Qed.

(** ** [messageHandler] *)

Section Handler.

Variables (e configId : JsValue) (w : World).

Lemma messageHandler_error :
  trusted e configId w = true ->
  get_data e = Some "error" ->
  messageHandler e configId w =
  (Returned tt, with_log LevelWarning configId HandlerError (with_outstandingMessages 0 w)).
Proof.
  unfold trusted, originAccepted, messageHandler, with_log, with_outstandingMessages.
  unfold_collaborators; unfold_monad; cbn.
  destruct (iframe (host w)) as [frame|]; [|discriminate].
  intros -> ->. reflexivity.
Qed.

Lemma messageHandler_other :
  trusted e configId w = true ->
  get_data e <> Some "error" ->
  get_data e <> Some "changed" ->
  messageHandler e configId w =
  (Returned tt,
   with_log LevelDebug configId (HandlerOther (get_data e))
     {| svc := set_outstandingMessages 0 (svc w);
        host := set_firedEvents (firedEvents (host w) ++ [get_data e]) (host w) |}).
Proof.
  unfold trusted, originAccepted, messageHandler, with_log.
  unfold_collaborators; unfold_monad; cbn.
  destruct (iframe (host w)) as [frame|]; [|discriminate].
  intros -> Herror Hchanged.
  rewrite (bool_decide_eq_false_2 _ Herror), (bool_decide_eq_false_2 _ Hchanged).
  reflexivity.
Qed.

(** What the handler leaves alone, whatever it is called with. *)
Lemma messageHandler_frame :
  let w' := exec (messageHandler e configId) w in
  fst (messageHandler e configId w) = Returned tt /\
  outstandingMessages (svc w') = 0 /\
  scheduledHeartBeatRunning (svc w') = scheduledHeartBeatRunning (svc w) /\
  lastIFrameRefresh (svc w') = lastIFrameRefresh (svc w) /\
  timers (host w') = timers (host w) /\
  nextHandle (host w') = nextHandle (host w) /\
  iframe (host w') = iframe (host w) /\
  listeners (host w') = listeners (host w) /\
  posted (host w') = posted (host w) /\
  storedEndpoints (host w') = storedEndpoints (host w) /\
  storedSessionState (host w') = storedSessionState (host w) /\
  config (host w') = config (host w) /\
  unhandled (host w') = unhandled (host w) /\
  (checkSessionReceived (svc w) = true -> checkSessionReceived (svc w') = true) /\
  (checkSessionChangedInternal (svc w) = true ->
   checkSessionChangedInternal (svc w') = true) /\
  errorsLogged w' = errorsLogged w.
Proof.
  unfold messageHandler, errorsLogged.
  unfold_collaborators; unfold_monad; cbn.
  destruct (iframe (host w)) as [frame|] eqn:Hframe; cbn;
    repeat (case_if; cbn); repeat split; auto;
    rewrite ?List.filter_app, ?length_app; cbn; lia.
Qed.

End Handler.

(** A trusted "error": the handler logs one warning and resets the counter
    (lines 155-158); it sets no flag, fires no event, publishes nothing. *)
Theorem trusted_error_is_only_logged (e configId : JsValue) (w : World) :
  trusted e configId w = true ->
  get_data e = Some "error" ->
  let w' := exec (messageHandler e configId) w in
  messageHandler e configId w =
    (Returned tt, with_log LevelWarning configId HandlerError (with_outstandingMessages 0 w)) /\
  checkSessionReceived (svc w') = checkSessionReceived (svc w) /\
  checkSessionChangedInternal (svc w') = checkSessionChangedInternal (svc w) /\
  firedEvents (host w') = firedEvents (host w) /\
  published (host w') = published (host w).
Proof.
  intros Htrusted Hdata. cbn zeta. unfold exec.
  rewrite (messageHandler_error e configId w Htrusted Hdata). cbn. repeat split.
Qed.

(** A trusted payload that is neither "error" nor "changed": the handler
    fires the event with the payload as it came and logs it (lines
    165-166), resets the counter, and leaves the flag and the change
    stream as they were. *)
Theorem trusted_other_payload_is_forwarded (e configId : JsValue) (w : World) :
  trusted e configId w = true ->
  get_data e <> Some "error" ->
  get_data e <> Some "changed" ->
  let w' := exec (messageHandler e configId) w in
  fst (messageHandler e configId w) = Returned tt /\
  firedEvents (host w') = (firedEvents (host w) ++ [get_data e])%list /\
  logs (host w') =
    (logs (host w) ++
     [{| level := LevelDebug; logConfigId := configId;
         message := HandlerOther (get_data e) |}])%list /\
  outstandingMessages (svc w') = 0 /\
  checkSessionReceived (svc w') = checkSessionReceived (svc w) /\
  checkSessionChangedInternal (svc w') = checkSessionChangedInternal (svc w) /\
  published (host w') = published (host w).
Proof.
  intros Htrusted Herror Hchanged. cbn zeta. unfold exec.
  rewrite (messageHandler_other e configId w Htrusted Herror Hchanged). cbn. repeat split.
Qed.

(** Whatever the handler is called with, it returns, leaves the counter at
    0, and touches neither the timer handle, the timers, the refresh time,
    the iframe, the listeners nor the posted messages; it never takes back
    [checkSessionReceived] or the change stream, and never logs an
    error. *)
Theorem messageHandler_touches_neither_timers_nor_frame
    (e configId : JsValue) (w : World) :
  let w' := exec (messageHandler e configId) w in
  fst (messageHandler e configId w) = Returned tt /\
  outstandingMessages (svc w') = 0 /\
  scheduledHeartBeatRunning (svc w') = scheduledHeartBeatRunning (svc w) /\
  lastIFrameRefresh (svc w') = lastIFrameRefresh (svc w) /\
  timers (host w') = timers (host w) /\
  iframe (host w') = iframe (host w) /\
  listeners (host w') = listeners (host w) /\
  posted (host w') = posted (host w) /\
  (checkSessionReceived (svc w) = true -> checkSessionReceived (svc w') = true) /\
  (checkSessionChangedInternal (svc w) = true ->
   checkSessionChangedInternal (svc w') = true) /\
  errorsLogged w' = errorsLogged w.
Proof.
  pose proof (messageHandler_frame e configId w) as Hframe. cbn zeta in *.
  intuition.
Qed.

(** ** More about one tick *)

Section TickMore.

Context `{Platform}.
Variables (cl : Closure) (w : World).

Lemma pollServerSessionNext_posts :
  let w' := exec (pollServerSessionNext cl) w in
  (posted (host w') = posted (host w) /\
   outstandingMessages (svc w') = outstandingMessages (svc w)) \/
  (exists frame o,
     iframe (host w) = Some frame /\
     URL_origin (default EmptyString (tick_checkSessionIframe cl w)) = Some o /\
     posted (host w') =
       (posted (host w) ++
        [{| target := contentWindow frame;
            text := cl_clientId cl +:+ " " +:+ default EmptyString (tick_sessionState cl w);
            targetOrigin := o |}])%list /\
     outstandingMessages (svc w') = outstandingMessages (svc w) + 1).
Proof.
  unfold pollServerSessionNext, new_URL_origin, setTimeout,
    tick_checkSessionIframe, tick_sessionState.
  unfold_collaborators; unfold_monad; cbn.
  destruct (iframe (host w)) as [frame|] eqn:Hframe; cbn;
    repeat (case_if; cbn);
    try (destruct (URL_origin _) eqn:Horigin; cbn; repeat (case_if; cbn));
    solve [left; split; reflexivity | right; eauto 10].
Qed.

Lemma pollServerSessionNext_published :
  let w' := exec (pollServerSessionNext cl) w in
  published (host w') = published (host w) \/
  published (host w') = (published (host w) ++ [true])%list.
Proof.
  unfold pollServerSessionNext, new_URL_origin, setTimeout.
  unfold_collaborators; unfold_monad; cbn.
  destruct (iframe (host w)) as [frame|] eqn:Hframe; cbn;
    repeat (case_if; cbn);
    try (destruct (URL_origin _) eqn:Horigin; cbn; repeat (case_if; cbn));
    auto.
Qed.

Lemma pollServerSessionNext_no_channel :
  iframe (host w) = None \/ cl_clientId cl = EmptyString ->
  let w' := exec (pollServerSessionNext cl) w in
  fst (pollServerSessionNext cl w) = Returned tt /\
  In {| level := LevelWarning; logConfigId := JsString (cl_configId cl);
        message := PollIFrameDoesNotExist |} (logs (host w')) /\
  posted (host w') = posted (host w) /\
  published (host w') = published (host w) /\
  checkSessionChangedInternal (svc w') = checkSessionChangedInternal (svc w) /\
  outstandingMessages (svc w') = outstandingMessages (svc w).
Proof.
  intros Hmissing.
  unfold pollServerSessionNext, new_URL_origin, setTimeout.
  unfold_collaborators; unfold_monad; cbn.
  destruct (iframe (host w)) as [frame|] eqn:Hframe; cbn.
  - destruct Hmissing as [Hnone|Hempty]; [discriminate|]. rewrite Hempty. cbn.
    case_if; cbn; repeat split; rewrite ?in_app_iff; cbn; auto.
  - case_if; cbn; repeat split; rewrite ?in_app_iff; cbn; auto.
Qed.

Lemma pollServerSessionNext_throws_world :
  sendsProbe cl w = true ->
  URL_origin (default EmptyString (tick_checkSessionIframe cl w)) = None ->
  pollServerSessionNext cl w =
  (Thrown (TypeError_InvalidURL (default EmptyString (tick_checkSessionIframe cl w))),
   with_log LevelDebug (JsString (cl_configId cl))
     (PollClientIdAndIframe (cl_clientId cl) true) w).
Proof.
  unfold sendsProbe, tick_sessionState, tick_checkSessionIframe, with_log.
  intros Hsends Hnone.
  destruct (iframe (host w)) as [frame|] eqn:Hframe; [|discriminate].
  cbn in Hsends.
  apply andb_prop in Hsends as [Hsends Hurl].
  apply andb_prop in Hsends as [Hclient Hstate].
  unfold pollServerSessionNext, new_URL_origin, setTimeout.
  unfold_collaborators; unfold_monad; cbn.
  rewrite Hframe; cbn. rewrite Hclient, Hstate, Hurl; cbn.
  rewrite Hnone; cbn. reflexivity.
Qed.

End TickMore.

(** A tick posts at most one message, and only to the window of the
    check-session iframe, with target origin the origin of the stored URL
    (lines 113-115); the counter goes up by one exactly when a message is
    posted. *)
Theorem tick_posts_at_most_one_probe_to_the_iframe `{Platform} (cl : Closure) (w : World) :
  let w' := exec (pollServerSessionNext cl) w in
  (posted (host w') = posted (host w) /\
   outstandingMessages (svc w') = outstandingMessages (svc w)) \/
  (exists frame o,
     iframe (host w) = Some frame /\
     URL_origin (default EmptyString (tick_checkSessionIframe cl w)) = Some o /\
     posted (host w') =
       (posted (host w) ++
        [{| target := contentWindow frame;
            text := cl_clientId cl +:+ " " +:+ default EmptyString (tick_sessionState cl w);
            targetOrigin := o |}])%list /\
     outstandingMessages (svc w') = outstandingMessages (svc w) + 1).
Proof.
  apply pollServerSessionNext_posts.
Qed.

(** A tick that finds no iframe, or an empty client identifier, logs the
    warning of line 124, posts and publishes nothing, leaves the counter,
    and still arms the next tick. *)
Theorem tick_without_iframe_or_clientId_only_warns `{Platform} (cl : Closure) (w : World) :
  iframe (host w) = None \/ cl_clientId cl = EmptyString ->
  let w' := exec (pollServerSessionNext cl) w in
  fst (pollServerSessionNext cl w) = Returned tt /\
  In {| level := LevelWarning; logConfigId := JsString (cl_configId cl);
        message := PollIFrameDoesNotExist |} (logs (host w')) /\
  posted (host w') = posted (host w) /\
  published (host w') = published (host w) /\
  checkSessionChangedInternal (svc w') = checkSessionChangedInternal (svc w) /\
  outstandingMessages (svc w') = outstandingMessages (svc w) /\
  scheduledHeartBeatRunning (svc w') = Some (nextHandle (host w)) /\
  timers (host w') !! nextHandle (host w) =
    Some {| delay := heartBeatInterval; callback := cl |}.
Proof.
  intros Hmissing. cbn zeta.
  destruct (pollServerSessionNext_no_channel cl w Hmissing)
    as (Hret & Hlog & Hposted & Hpublished & Hstream & Hcount).
  pose proof (pollServerSessionNext_outcome cl w) as Hout.
  unfold exec in *.
  destruct (pollServerSessionNext cl w) as [[[]|err] w']; [|discriminate Hret].
  destruct Hout as (Hhandle & Htimers & _). cbn in *.
  repeat split; try assumption.
  rewrite Htimers. apply lookup_insert_eq.
Qed.

(** When the URL constructor rejects the stored check-session URL, the
    tick stops at line 113: nothing is counted, nothing posted, no timer
    armed and no handle recorded.  Inside the refresh window the error
    ends up as an unhandled error and the loop is over. *)
Theorem tick_with_rejected_URL_ends_the_loop `{Platform}
    (cl : Closure) (now : Z) (w : World) :
  sendsProbe cl w = true ->
  URL_origin (default EmptyString (tick_checkSessionIframe cl w)) = None ->
  lastIFrameRefresh (svc w) + iframeRefreshInterval > now ->
  let err := TypeError_InvalidURL (default EmptyString (tick_checkSessionIframe cl w)) in
  let w' := exec (pollServerSessionRecur cl now) w in
  fst (pollServerSessionNext cl w) = Thrown err /\
  fst (pollServerSessionRecur cl now w) = Returned tt /\
  unhandled (host w') = (unhandled (host w) ++ [err])%list /\
  svc w' = svc w /\
  posted (host w') = posted (host w) /\
  timers (host w') = timers (host w).
Proof.
  intros Hsends Hnone Hwindow. cbn zeta. unfold exec.
  rewrite (pollServerSessionRecur_in_window cl now w Hwindow).
  unfold reportUnhandled.
  rewrite (pollServerSessionNext_throws_world cl w Hsends Hnone). cbn.
  repeat split.
Qed.

(** ** More about the loop *)

Section LoopMore.

Context `{Platform}.
Variables (cl : Closure) (now : Z) (w : World).

(** [init] past the refresh window, with stored endpoints: lines 82-97. *)
Lemma pollServerSessionRecur_reloads (endpoints : AuthWellKnownEndpoints) :
  lastIFrameRefresh (svc w) + iframeRefreshInterval <= now ->
  storedEndpoints (host w) !! cl_configId cl = Some endpoints ->
  let w' := exec (pollServerSessionRecur cl now) w in
  svc w' = svc w /\
  posted (host w') = posted (host w) /\
  published (host w') = published (host w) /\
  firedEvents (host w') = firedEvents (host w) /\
  timers (host w') = timers (host w) /\
  listeners (host w') =
    match iframe (host w) with
    | Some _ => listeners (host w)
    | None => (listeners (host w) ++ [cl_configId cl])%list
    end /\
  exists frame,
    iframe (host w') = Some frame /\
    onload frame = Some {| subscriber := cl; stopped := false |} /\
    contentWindow frame =
      match iframe (host w) with
      | Some old => contentWindow old
      | None => FrameWindow IFRAME_FOR_CHECK_SESSION_IDENTIFIER
      end /\
    location frame =
      if truthy (checkSessionIframe endpoints) then checkSessionIframe endpoints
      else iframe (host w) ≫= location.
Proof.
  intros Hwindow Hsome.
  unfold pollServerSessionRecur, init, subscribe, getOrCreateIframe, addIFrameToWindowBody,
    bindMessageEventToIframe, location_replace.
  unfold_collaborators; unfold_monad; cbn.
  rewrite (gtb_false _ _ Hwindow), Hsome.
  destruct (iframe (host w)) as [frame|] eqn:Hframe; cbn;
    destruct (checkSessionIframe endpoints) as [url|] eqn:Hurl; cbn;
    try (destruct (negb (String.eqb url EmptyString)) eqn:Hempty; cbn);
    try rewrite Hframe; cbn; repeat split; eauto 10.
Qed.

End LoopMore.

(** Inside the refresh window a tick does not touch the iframe: no
    navigation, no new listener, and the refresh time stays (line 71-73). *)
Theorem tick_inside_refresh_window_leaves_iframe `{Platform}
    (cl : Closure) (now : Z) (w : World) :
  lastIFrameRefresh (svc w) + iframeRefreshInterval > now ->
  let w' := exec (pollServerSessionRecur cl now) w in
  iframe (host w') = iframe (host w) /\
  listeners (host w') = listeners (host w) /\
  lastIFrameRefresh (svc w') = lastIFrameRefresh (svc w).
Proof.
  intros Hwindow. cbn zeta. unfold exec.
  rewrite (pollServerSessionRecur_in_window cl now w Hwindow).
  destruct (pollServerSessionNext_frame cl w)
    as (_ & Hrefresh & Hframe & _ & _ & _ & Hlisteners & _).
  unfold exec, reportUnhandled in *.
  destruct (pollServerSessionNext cl w) as [[[]|err] w']; cbn in *; auto.
Qed.

(** Past the refresh window, with stored endpoints, a tick sends nothing
    and arms nothing: it gets the iframe -- the existing one, or a new one
    together with its one listener -- points it at the stored URL when
    there is one, and waits for the load event. *)
Theorem tick_past_refresh_window_reloads_iframe `{Platform}
    (cl : Closure) (now : Z) (w : World) (endpoints : AuthWellKnownEndpoints) :
  lastIFrameRefresh (svc w) + iframeRefreshInterval <= now ->
  storedEndpoints (host w) !! cl_configId cl = Some endpoints ->
  let w' := exec (pollServerSessionRecur cl now) w in
  svc w' = svc w /\
  posted (host w') = posted (host w) /\
  timers (host w') = timers (host w) /\
  listeners (host w') =
    match iframe (host w) with
    | Some _ => listeners (host w)
    | None => (listeners (host w) ++ [cl_configId cl])%list
    end /\
  exists frame,
    iframe (host w') = Some frame /\
    onload frame = Some {| subscriber := cl; stopped := false |} /\
    contentWindow frame =
      match iframe (host w) with
      | Some old => contentWindow old
      | None => FrameWindow IFRAME_FOR_CHECK_SESSION_IDENTIFIER
      end /\
    location frame =
      if truthy (checkSessionIframe endpoints) then checkSessionIframe endpoints
      else iframe (host w) ≫= location.
Proof.
  intros Hwindow Hsome. cbn zeta.
  destruct (pollServerSessionRecur_reloads cl now w endpoints Hwindow Hsome)
    as (Hsvc & Hposted & _ & _ & Htimers & Hlisteners & Hframe).
  repeat split; assumption.
Qed.

(** The load handler stays on the iframe after it has run the tick, but
    the subscription is over: a second load event writes the refresh time
    (line 93) and nothing else. *)
Theorem second_load_event_only_writes_refresh_time `{Platform}
    (w : World) (frame : IFrame) (cl : Closure) (first second : Z) :
  iframe (host w) = Some frame ->
  onload frame = Some {| subscriber := cl; stopped := false |} ->
  let w1 := exec (iframeLoaded first) w in
  iframeLoaded second w1 = (Returned tt, with_lastIFrameRefresh second w1).
Proof.
  intros Hframe Hload. cbn zeta. unfold exec.
  rewrite (iframeLoaded_pending first w frame cl Hframe Hload).
  set (w0 := {| svc := set_lastIFrameRefresh first (svc w); host := _ |}).
  destruct (pollServerSessionNext_frame cl w0) as (_ & _ & Hframe' & _).
  unfold exec, reportUnhandled in *.
  destruct (pollServerSessionNext cl w0) as [[[]|err] w1]; cbn in *;
    unfold iframeLoaded, with_lastIFrameRefresh;
    unfold_collaborators; unfold_monad; cbn;
    rewrite Hframe'; cbn; reflexivity.
Qed.

(** [stop] does not take the load handler off the iframe.  While a tick
    waits for the load event -- the first tick or a later one -- [stop]
    clears the handle, and the load event then runs the tick all the same
    and arms the next timer. *)
Theorem stop_while_waiting_for_load_does_not_end_loop `{Platform}
    (w : World) (frame : IFrame) (cl : Closure) (loaded : Z) :
  iframe (host w) = Some frame ->
  onload frame = Some {| subscriber := cl; stopped := false |} ->
  (sendsProbe cl w = true ->
   is_Some (URL_origin (default EmptyString (tick_checkSessionIframe cl w)))) ->
  let w1 := exec stop w in
  let w2 := exec (iframeLoaded loaded) w1 in
  scheduledHeartBeatRunning (svc w1) = None /\
  iframe (host w1) = Some frame /\
  scheduledHeartBeatRunning (svc w2) = Some (nextHandle (host w)) /\
  timers (host w2) !! nextHandle (host w) =
    Some {| delay := heartBeatInterval; callback := cl |}.
Proof.
  intros Hframe Hload Hurl. cbn zeta.
  assert (Hstop : scheduledHeartBeatRunning (svc (exec stop w)) = None /\
                  iframe (host (exec stop w)) = Some frame /\
                  nextHandle (host (exec stop w)) = nextHandle (host w) /\
                  storedEndpoints (host (exec stop w)) = storedEndpoints (host w) /\
                  storedSessionState (host (exec stop w)) = storedSessionState (host w)).
  { destruct (scheduledHeartBeatRunning (svc w)) as [h|] eqn:Hh; unfold exec.
    - rewrite (stop_running_world w h Hh). cbn. auto.
    - rewrite (stop_not_running w Hh). cbn. auto. }
  destruct Hstop as (Hnone & Hframe1 & Hnext & Hendpoints & Hstate).
  set (w1 := exec stop w) in *.
  split; [assumption|]. split; [assumption|].
  unfold exec at 1 2.
  rewrite (iframeLoaded_pending loaded w1 frame cl Hframe1 Hload).
  set (w0 := {| svc := set_lastIFrameRefresh loaded (svc w1); host := _ |}).
  pose proof (pollServerSessionNext_outcome cl w0) as Hout.
  unfold reportUnhandled.
  destruct (pollServerSessionNext cl w0) as [[[]|err] w2].
  - destruct Hout as (Hhandle & Htimers & _). cbn [snd].
    subst w0; cbn in Hhandle, Htimers. rewrite Hnext in Hhandle, Htimers.
    split; [assumption|]. rewrite Htimers. apply lookup_insert_eq.
  - exfalso. destruct Hout as (Hsends & Hnone' & _).
    unfold sendsProbe, tick_sessionState, tick_checkSessionIframe in *.
    subst w0; cbn in Hsends, Hnone'. rewrite Hendpoints, Hstate in Hsends.
    rewrite Hendpoints in Hnone'. rewrite Hframe in Hurl.
    destruct (Hurl Hsends) as [o Ho]. congruence.
Qed.

(** A timer that fires is not taken out of [scheduledHeartBeatRunning].
    When its tick has to reload the iframe, the service keeps the handle
    of the fired timer while no timer is pending: [start] still returns at
    line 45. *)
Theorem fired_timer_leaves_its_handle_recorded `{Platform}
    (w : World) (h : TimerHandle) (t : Timer) (now : Z)
    (endpoints : AuthWellKnownEndpoints) :
  timers (host w) !! h = Some t ->
  scheduledHeartBeatRunning (svc w) = Some h ->
  lastIFrameRefresh (svc w) + iframeRefreshInterval <= now ->
  storedEndpoints (host w) !! cl_configId (callback t) = Some endpoints ->
  let w' := exec (timerFired h now) w in
  scheduledHeartBeatRunning (svc w') = Some h /\
  timers (host w') = delete h (timers (host w)) /\
  timers (host w') !! h = None /\
  (forall configId later, start configId later w' = (Returned tt, w')).
Proof.
  intros Hpending Hhandle Hwindow Hstored. cbn zeta. unfold exec.
  rewrite (timerFired_pending now w h t Hpending).
  destruct (pollServerSessionRecur_reloads (callback t) now (without_timer h w) endpoints
              Hwindow Hstored)
    as (Hsvc & _ & _ & _ & Htimers & _).
  unfold exec in *.
  set (w' := snd (pollServerSessionRecur (callback t) now (without_timer h w))) in *.
  assert (Hh' : scheduledHeartBeatRunning (svc w') = Some h)
    by (rewrite Hsvc; exact Hhandle).
  repeat split.
  - exact Hh'.
  - rewrite Htimers. reflexivity.
  - rewrite Htimers. cbn. apply lookup_delete_eq.
  - intros configId later. eapply start_running. exact Hh'.
Qed.

(** ** What every event keeps *)

Lemma keeps_refl (w : World) : keeps w w.
Proof.
  unfold keeps. repeat split; auto.
  exists []. rewrite app_nil_r. auto.
Qed.

Lemma keeps_trans (w1 w2 w3 : World) : keeps w1 w2 -> keeps w2 w3 -> keeps w1 w3.
Proof.
  intros (Hflag & Hstream & (l & Hpub & Htrue) & Hlisteners & Hconfig)
         (Hflag' & Hstream' & (l' & Hpub' & Htrue') & Hlisteners' & Hconfig').
  unfold keeps. repeat split; auto.
  - exists (l ++ l')%list. rewrite Hpub', Hpub, app_assoc. split; [reflexivity|].
    apply Forall_app. auto.
  - congruence.
Qed.

(** Worlds that differ in the counter, the timers, the log or the
    unhandled errors only. *)
Lemma keeps_same (w w' : World) :
  checkSessionReceived (svc w') = checkSessionReceived (svc w) ->
  checkSessionChangedInternal (svc w') = checkSessionChangedInternal (svc w) ->
  published (host w') = published (host w) ->
  listeners (host w') = listeners (host w) ->
  iframe (host w') = iframe (host w) ->
  config (host w') = config (host w) ->
  keeps w w'.
Proof.
  intros Hflag Hstream Hpub Hlisteners Hframe Hconfig.
  unfold keeps, listenersMatchFrame.
  rewrite Hflag, Hstream, Hpub, Hlisteners, Hframe, Hconfig.
  repeat split; auto. exists []. rewrite app_nil_r. auto.
Qed.

Section Keeps.

Context `{Platform}.

Lemma pollServerSessionNext_keeps (cl : Closure) (w : World) :
  keeps w (exec (pollServerSessionNext cl) w).
Proof.
  destruct (pollServerSessionNext_frame cl w)
    as (Hflag & _ & Hframe & _ & _ & Hconfig & Hlisteners & _ & _ & Hstream & _).
  pose proof (pollServerSessionNext_published cl w) as Hpub.
  cbn zeta in *. unfold keeps, listenersMatchFrame.
  rewrite Hflag, Hframe, Hlisteners, Hconfig. repeat split; auto.
  destruct Hpub as [-> | ->].
  - exists []. rewrite app_nil_r. auto.
  - exists [true]. auto.
Qed.

Lemma reportUnhandled_keeps (m : M unit) (w : World) :
  keeps w (exec m w) -> keeps w (exec (reportUnhandled m) w).
Proof.
  intros Hkeeps. apply (keeps_trans _ _ _ Hkeeps).
  unfold exec, reportUnhandled.
  destruct (m w) as [[[]|err] w']; cbn.
  - apply keeps_refl.
  - apply keeps_same; reflexivity.
Qed.

Lemma pollServerSessionRecur_keeps (cl : Closure) (now : Z) (w : World) :
  keeps w (exec (pollServerSessionRecur cl now) w).
Proof.
  destruct (Z_gt_le_dec (lastIFrameRefresh (svc w) + iframeRefreshInterval) now)
    as [Hwindow|Hwindow].
  - unfold exec at 1. rewrite (pollServerSessionRecur_in_window cl now w Hwindow).
    apply reportUnhandled_keeps, pollServerSessionNext_keeps.
  - destruct (storedEndpoints (host w) !! cl_configId cl) as [endpoints|] eqn:Hstored.
    + destruct (pollServerSessionRecur_waits_for_load cl now w endpoints Hwindow Hstored)
        as (_ & Hsvc & _ & _ & _ & _ & Hconfig & _).
      destruct (pollServerSessionRecur_reloads cl now w endpoints Hwindow Hstored)
        as (_ & _ & Hpub & _ & _ & Hlisteners & frame & Hframe & _).
      cbn zeta in *. unfold keeps, listenersMatchFrame.
      rewrite Hsvc, Hpub, Hlisteners, Hframe, Hconfig. repeat split; auto.
      * exists []. rewrite app_nil_r. auto.
      * destruct (iframe (host w)); [auto|].
        intros Hnone. rewrite length_app, Hnone. reflexivity.
    + unfold exec. rewrite (pollServerSessionRecur_no_endpoints cl now w Hwindow Hstored).
      apply keeps_same; reflexivity.
Qed.

Lemma start_keeps (configId : string) (now : Z) (w : World) :
  keeps w (exec (start configId now) w).
Proof.
  destruct (scheduledHeartBeatRunning (svc w)) as [h|] eqn:Hh; unfold exec.
  - rewrite (start_running w configId now h Hh). apply keeps_refl.
  - rewrite (start_not_running w configId now Hh).
    apply (keeps_trans _ (with_outstandingMessages 0 w)).
    + apply keeps_same; reflexivity.
    + apply pollServerSessionRecur_keeps.
Qed.

Lemma stop_keeps (w : World) : keeps w (exec stop w).
Proof.
  destruct (scheduledHeartBeatRunning (svc w)) as [h|] eqn:Hh; unfold exec.
  - rewrite (stop_running_world w h Hh). cbn.
    unfold keeps, listenersMatchFrame. cbn. repeat split; auto.
    exists []. rewrite app_nil_r. auto.
  - rewrite (stop_not_running w Hh). apply keeps_refl.
Qed.

Lemma timerFired_keeps (h : TimerHandle) (now : Z) (w : World) :
  keeps w (exec (timerFired h now) w).
Proof.
  destruct (timers (host w) !! h) as [t|] eqn:Hpending; unfold exec.
  - rewrite (timerFired_pending now w h t Hpending).
    apply (keeps_trans _ (without_timer h w)).
    + apply keeps_same; reflexivity.
    + apply pollServerSessionRecur_keeps.
  - unfold timerFired. unfold_monad; cbn. rewrite Hpending. apply keeps_refl.
Qed.

Lemma iframeLoaded_keeps (now : Z) (w : World) :
  keeps w (exec (iframeLoaded now) w).
Proof.
  destruct (iframe (host w)) as [frame|] eqn:Hframe.
  - destruct (onload frame) as [[pending []]|] eqn:Hload.
    + unfold exec, iframeLoaded. unfold_collaborators; unfold_monad; cbn.
      rewrite Hframe; cbn. rewrite Hload; cbn. apply keeps_same; reflexivity.
    + unfold exec at 1. rewrite (iframeLoaded_pending now w frame pending Hframe Hload).
      set (w0 := {| svc := set_lastIFrameRefresh now (svc w); host := _ |}).
      apply (keeps_trans _ w0).
      * unfold keeps, listenersMatchFrame. subst w0; cbn. rewrite Hframe.
        repeat split; auto. exists []. rewrite app_nil_r. auto.
      * apply reportUnhandled_keeps, pollServerSessionNext_keeps.
    + unfold exec, iframeLoaded. unfold_collaborators; unfold_monad; cbn.
      rewrite Hframe; cbn. rewrite Hload; cbn. apply keeps_refl.
  - unfold exec, iframeLoaded. unfold_collaborators; unfold_monad; cbn.
    rewrite Hframe; cbn. apply keeps_refl.
Qed.

(** The bound listener calls the handler with the identifier in the place
    of the event: there is no [source] to compare, and the handler stops
    after line 155. *)
Lemma dispatchMessage_world (bound : list string) (m : MessageEvent) (w : World) :
  dispatchMessage bound m w =
  (Returned tt,
   match bound with
   | [] => w
   | _ :: _ => with_outstandingMessages 0 w
   end).
Proof.
  revert w. induction bound as [|configId rest IH]; intros w; [reflexivity|].
  cbn [dispatchMessage]. unfold_monad.
  assert (Huntrusted : trusted (JsString configId) (JsMessageEvent m) w = false).
  { unfold trusted. destruct (iframe (host w)); [|reflexivity].
    cbn. apply andb_false_r. }
  rewrite (reportUnhandled_of_return w _ _
             (messageHandler_untrusted _ _ w Huntrusted)).
  rewrite IH. destruct rest; reflexivity.
Qed.

Lemma messageReceived_keeps (m : MessageEvent) (w : World) :
  keeps w (exec (messageReceived m) w).
Proof.
  unfold exec, messageReceived. unfold_monad; cbn.
  rewrite dispatchMessage_world.
  destruct (listeners (host w)); cbn; [apply keeps_refl|].
  apply keeps_same; reflexivity.
Qed.

Lemma step_keeps (ev : Event) (w : World) : keeps w (exec (step ev) w).
Proof.
  destruct ev; cbn [step].
  - apply start_keeps.
  - apply stop_keeps.
  - apply timerFired_keeps.
  - apply iframeLoaded_keeps.
  - apply messageReceived_keeps.
  - apply keeps_same; reflexivity.
Qed.

Lemma run_keeps (evs : list Event) (w : World) : keeps w (run evs w).
Proof.
  revert w. induction evs as [|ev rest IH]; intros w; cbn [run].
  - apply keeps_refl.
  - eapply keeps_trans; [apply step_keeps|apply IH].
Qed.

End Keeps.

(** A [message] event that comes in through the listener of line 172-173
    is not acted upon, whatever its origin, source and payload: the flag
    [checkSessionReceived], the change stream, the fired events and the
    log are as before. *)
Theorem listener_never_acts_on_a_message (m : MessageEvent) (w : World) :
  let w' := exec (messageReceived m) w in
  fst (messageReceived m w) = Returned tt /\
  checkSessionReceived (svc w') = checkSessionReceived (svc w) /\
  checkSessionChangedInternal (svc w') = checkSessionChangedInternal (svc w) /\
  firedEvents (host w') = firedEvents (host w) /\
  published (host w') = published (host w) /\
  logs (host w') = logs (host w).
Proof.
  cbn zeta. unfold exec, messageReceived. unfold_monad; cbn.
  rewrite dispatchMessage_world.
  destruct (listeners (host w)); cbn; repeat split.
Qed.

(** Along any sequence of calls and browser events, a service whose
    [checkSessionReceived] is not set never gets it set:
    [serverStateChanged] keeps answering [false] for every tenant. *)
Theorem serverStateChanged_stays_false_along_any_run `{Platform}
    (evs : list Event) (tenant : string) (w : World) :
  checkSessionReceived (svc w) = false ->
  checkSessionReceived (svc (run evs w)) = false /\
  fst (serverStateChanged tenant (run evs w)) = Returned false.
Proof.
  intros Hflag. destruct (run_keeps evs w) as (Hkeeps & _).
  specialize (Hkeeps Hflag). split; [assumption|].
  unfold serverStateChanged. unfold_collaborators; unfold_monad; cbn.
  rewrite Hkeeps. rewrite andb_false_r. reflexivity.
Qed.

(** The change stream is never given [false]: along any sequence of calls
    and browser events everything published is [true], and once the
    current value is [true] it stays so -- across [stop] and [start] as
    well. *)
Theorem change_stream_never_publishes_false `{Platform} (evs : list Event) (w : World) :
  (exists l, published (host (run evs w)) = (published (host w) ++ l)%list /\
             Forall (eq true) l) /\
  (checkSessionChangedInternal (svc w) = true ->
   checkSessionChangedInternal (svc (run evs w)) = true).
Proof.
  destruct (run_keeps evs w) as (_ & Hstream & Hpub & _). split; assumption.
Qed.

(** The [message] listener is bound when the iframe is created and at no
    other time (lines 179-183): along any sequence of calls and browser
    events there is one listener if the iframe exists and none if not. *)
Theorem one_listener_for_the_one_iframe `{Platform} (evs : list Event) (w : World) :
  listenersMatchFrame w ->
  listenersMatchFrame (run evs w) /\
  (length (listeners (host (run evs w))) <= 1)%nat.
Proof.
  intros Hmatch. destruct (run_keeps evs w) as (_ & _ & _ & Hlisteners & _).
  specialize (Hlisteners Hmatch). split; [assumption|].
  unfold listenersMatchFrame in Hlisteners. rewrite Hlisteners.
  destruct (iframe (host (run evs w))); lia.
Qed.

(** ** The refresh time *)

Section RefreshTime.

Context `{Platform}.

Lemma pollServerSessionRecur_refresh_time (cl : Closure) (now : Z) (w : World) :
  lastIFrameRefresh (svc (exec (pollServerSessionRecur cl now) w)) =
  lastIFrameRefresh (svc w).
Proof.
  destruct (Z_gt_le_dec (lastIFrameRefresh (svc w) + iframeRefreshInterval) now)
    as [Hwindow|Hwindow].
  - unfold exec. rewrite (pollServerSessionRecur_in_window cl now w Hwindow).
    destruct (pollServerSessionNext_frame cl w) as (_ & Hrefresh & _).
    unfold exec, reportUnhandled in *.
    destruct (pollServerSessionNext cl w) as [[[]|err] w']; cbn in *; auto.
  - destruct (storedEndpoints (host w) !! cl_configId cl) as [endpoints|] eqn:Hstored.
    + destruct (pollServerSessionRecur_waits_for_load cl now w endpoints Hwindow Hstored)
        as (_ & Hsvc & _).
      rewrite Hsvc. reflexivity.
    + unfold exec. rewrite (pollServerSessionRecur_no_endpoints cl now w Hwindow Hstored).
      reflexivity.
Qed.

End RefreshTime.

(** [lastIFrameRefresh] is written by the load handler of the iframe
    (line 93) and by nothing else: no call of [start] or [stop], no timer,
    no message and no storage write changes it. *)
Theorem only_the_load_event_writes_lastIFrameRefresh `{Platform} (ev : Event) (w : World) :
  (forall now, ev <> IframeLoaded now) ->
  lastIFrameRefresh (svc (exec (step ev) w)) = lastIFrameRefresh (svc w).
Proof.
  intros Hother. destruct ev as [configId now| |h now|now|m|endpoints states]; cbn [step].
  - destruct (scheduledHeartBeatRunning (svc w)) as [h|] eqn:Hh; unfold exec.
    + rewrite (start_running w configId now h Hh). reflexivity.
    + rewrite (start_not_running w configId now Hh).
      apply (pollServerSessionRecur_refresh_time _ now (with_outstandingMessages 0 w)).
  - destruct (scheduledHeartBeatRunning (svc w)) as [h|] eqn:Hh; unfold exec.
    + rewrite (stop_running_world w h Hh). reflexivity.
    + rewrite (stop_not_running w Hh). reflexivity.
  - destruct (timers (host w) !! h) as [t|] eqn:Hpending; unfold exec.
    + rewrite (timerFired_pending now w h t Hpending).
      apply (pollServerSessionRecur_refresh_time _ now (without_timer h w)).
    + unfold timerFired. unfold_monad; cbn. rewrite Hpending. reflexivity.
  - destruct (Hother now). reflexivity.
  - unfold exec, messageReceived. unfold_monad; cbn.
    rewrite dispatchMessage_world. destruct (listeners (host w)); reflexivity.
  - reflexivity.
Qed.

(** ** Messages and the error threshold *)

Section Deferred.

Context `{Platform}.
Variables (cl : Closure) (w : World).

Hypothesis Hsends : sendsProbe cl w = true.
Hypothesis Hurl :
  is_Some (URL_origin (default EmptyString (tick_checkSessionIframe cl w))).
Hypothesis Hzero : outstandingMessages (svc w) = 0.

Lemma ticks_errors (k : nat) :
  errorsLogged (ticks cl k w) = (errorsLogged w + (k - 3))%nat.
Proof.
  induction k as [|k IH]; [cbn; lia|].
  destruct (ticks_invariant cl w Hsends Hurl Hzero k) as (Hs & Hu & Hcount & _).
  assert (exists frame, iframe (host (ticks cl k w)) = Some frame) as [frame Hframe].
  { unfold sendsProbe in Hs.
    destruct (iframe (host (ticks cl k w))) as [frame|]; [eauto|discriminate]. }
  destruct Hurl as [o Ho]. rewrite <- Hu in Ho.
  destruct (pollServerSessionNext_probe cl (ticks cl k w) frame o Hframe Hs Ho)
    as (_ & _ & _ & _ & _ & Herrors).
  cbn [ticks]. cbn zeta in Herrors. rewrite Herrors, IH, Hcount.
  destruct (Z.of_nat k + 1 >? 3) eqn:Hgt.
  - apply Z.gtb_lt in Hgt. lia.
  - rewrite Z.gtb_ltb in Hgt. apply Z.ltb_ge in Hgt. lia.
Qed.

End Deferred.

(** Every handled message, trusted or not, puts the error off: after it,
    the next three ticks that send a probe log no error, and the fourth
    logs the first. *)
Theorem any_handled_message_defers_the_error `{Platform}
    (e configId : JsValue) (cl : Closure) (w : World) (k : nat) :
  sendsProbe cl w = true ->
  is_Some (URL_origin (default EmptyString (tick_checkSessionIframe cl w))) ->
  let w0 := exec (messageHandler e configId) w in
  outstandingMessages (svc (ticks cl k w0)) = Z.of_nat k /\
  errorsLogged (ticks cl k w0) = (errorsLogged w + (k - 3))%nat.
Proof.
  intros Hsends Hurl. cbn zeta.
  destruct (messageHandler_frame e configId w)
    as (_ & Hzero & _ & _ & _ & _ & Hframe & _ & _ & Hendpoints & Hstate & _ & _ & _ & _ & Herrors).
  cbn zeta in *.
  set (w0 := exec (messageHandler e configId) w) in *.
  assert (Hsends0 : sendsProbe cl w0 = true).
  { unfold sendsProbe, tick_sessionState, tick_checkSessionIframe in *.
    rewrite Hframe, Hendpoints, Hstate. exact Hsends. }
  assert (Hurl0 : is_Some (URL_origin (default EmptyString (tick_checkSessionIframe cl w0)))).
  { unfold tick_checkSessionIframe in *. rewrite Hendpoints. exact Hurl. }
  destruct (ticks_invariant cl w0 Hsends0 Hurl0 Hzero k) as (_ & _ & Hcount & _).
  split; [assumption|].
  rewrite (ticks_errors cl w0 Hsends0 Hurl0 Hzero k), Herrors. reflexivity.
Qed.

(** ** One loop at a time *)

Section OneLoop.

Context `{Platform}.

Lemma oneLoop_later (clock clock' : Z) (w : World) :
  clock <= clock' -> oneLoop clock w -> oneLoop clock' w.
Proof.
  intros Hle [Hpending Htimers]. split; [|assumption].
  intros Hp. destruct (Hpending Hp). split; [assumption|lia].
Qed.

(** A tick that runs with no timer pending and no load awaited leaves at
    most its own timer. *)
Lemma pollServerSessionNext_oneLoop (cl : Closure) (clock : Z) (w : World) :
  timers (host w) = ∅ ->
  pendingLoad w = false ->
  oneLoop clock (exec (reportUnhandled (pollServerSessionNext cl)) w).
Proof.
  intros Hempty Hidle.
  pose proof (pollServerSessionNext_outcome cl w) as Hout.
  destruct (pollServerSessionNext_frame cl w) as (_ & _ & Hframe & _).
  unfold exec, reportUnhandled in *. unfold oneLoop, pendingLoad in *.
  destruct (pollServerSessionNext cl w) as [[[]|err] w']; cbn in *.
  - destruct Hout as (Hhandle & Htimers & _). rewrite Hframe, Hidle. split; [discriminate|].
    right. eexists _, _. split; [|exact Hhandle].
    rewrite Htimers, Hempty. apply insert_empty.
  - destruct Hout as (_ & _ & _ & Htimers & _). rewrite Hframe, Hidle.
    split; [discriminate|]. left. rewrite Htimers. exact Hempty.
Qed.

Lemma pollServerSessionRecur_oneLoop (cl : Closure) (clock now : Z) (w : World) :
  timers (host w) = ∅ ->
  (pendingLoad w = true -> lastIFrameRefresh (svc w) + iframeRefreshInterval <= clock) ->
  clock <= now ->
  oneLoop now (exec (pollServerSessionRecur cl now) w).
Proof.
  intros Hempty Hpending Hclock.
  destruct (Z_gt_le_dec (lastIFrameRefresh (svc w) + iframeRefreshInterval) now)
    as [Hwindow|Hwindow].
  - unfold exec at 1. rewrite (pollServerSessionRecur_in_window cl now w Hwindow).
    apply pollServerSessionNext_oneLoop; [assumption|].
    destruct (pendingLoad w) eqn:Hp; [|reflexivity].
    specialize (Hpending eq_refl). lia.
  - destruct (storedEndpoints (host w) !! cl_configId cl) as [endpoints|] eqn:Hstored.
    + destruct (pollServerSessionRecur_reloads cl now w endpoints Hwindow Hstored)
        as (Hsvc & _ & _ & _ & Htimers & _).
      cbn zeta in *. unfold oneLoop. rewrite Hsvc, Htimers, Hempty. auto.
    + unfold exec. rewrite (pollServerSessionRecur_no_endpoints cl now w Hwindow Hstored).
      unfold oneLoop, pendingLoad. cbn. auto.
Qed.

Lemma step_oneLoop (ev : Event) (clock : Z) (w : World) :
  oneLoop clock w ->
  (forall now, eventTime ev = Some now -> clock <= now) ->
  oneLoop (default clock (eventTime ev)) (exec (step ev) w).
Proof.
  intros Hone Hclock. pose proof Hone as [Hpending Htimers].
  destruct ev as [configId now| |h now|now|m|endpoints states]; cbn [step eventTime default].
  - (* start *)
    specialize (Hclock now eq_refl).
    destruct (scheduledHeartBeatRunning (svc w)) as [h|] eqn:Hh; unfold exec.
    + rewrite (start_running w configId now h Hh). cbn. eapply oneLoop_later; eassumption.
    + rewrite (start_not_running w configId now Hh).
      apply (pollServerSessionRecur_oneLoop _ clock).
      * destruct Htimers as [Hempty|(h & t & _ & Hsome)]; [exact Hempty|congruence].
      * intros Hp. apply (Hpending Hp).
      * exact Hclock.
  - (* stop *)
    destruct (scheduledHeartBeatRunning (svc w)) as [h|] eqn:Hh; unfold exec.
    + rewrite (stop_running_world w h Hh). unfold oneLoop, pendingLoad in *. cbn.
      assert (Hdeleted : delete h (timers (host w)) = ∅).
      { destruct Htimers as [Hempty|(h' & t & Hone' & Hsome)].
        - rewrite Hempty. apply delete_empty.
        - assert (h' = h) as -> by congruence. rewrite Hone'. apply delete_singleton_eq. }
      rewrite Hdeleted. split; [|auto].
      intros Hp. split; [reflexivity|]. apply (Hpending Hp).
    + rewrite (stop_not_running w Hh). exact Hone.
  - (* a timer fires *)
    specialize (Hclock now eq_refl).
    destruct (timers (host w) !! h) as [t|] eqn:Hfired; unfold exec.
    + rewrite (timerFired_pending now w h t Hfired).
      destruct Htimers as [Hempty|(h' & t' & Hone' & Hsome)].
      { rewrite Hempty in Hfired. rewrite lookup_empty in Hfired. discriminate. }
      assert (h' = h) as ->.
      { rewrite Hone' in Hfired. apply lookup_singleton_Some in Hfired. tauto. }
      apply (pollServerSessionRecur_oneLoop _ clock).
      * cbn. rewrite Hone'. apply delete_singleton_eq.
      * intros Hp. apply (Hpending Hp).
      * exact Hclock.
    + unfold timerFired. unfold_monad; cbn. rewrite Hfired.
      eapply oneLoop_later; eassumption.
  - (* the iframe has loaded *)
    specialize (Hclock now eq_refl).
    destruct (iframe (host w)) as [frame|] eqn:Hframe.
    + destruct (onload frame) as [[pending []]|] eqn:Hload.
      * unfold exec, iframeLoaded. unfold_collaborators; unfold_monad; cbn.
        rewrite Hframe; cbn. rewrite Hload; cbn.
        unfold oneLoop, pendingLoad in *. cbn. rewrite Hframe in *. cbn in *.
        rewrite Hload in *. cbn in *. split; [discriminate|assumption].
      * unfold exec at 1. rewrite (iframeLoaded_pending now w frame pending Hframe Hload).
        apply pollServerSessionNext_oneLoop; cbn.
        -- apply Hpending. unfold pendingLoad. rewrite Hframe. cbn. rewrite Hload. reflexivity.
        -- reflexivity.
      * unfold exec, iframeLoaded. unfold_collaborators; unfold_monad; cbn.
        rewrite Hframe; cbn. rewrite Hload; cbn. eapply oneLoop_later; eassumption.
    + unfold exec, iframeLoaded. unfold_collaborators; unfold_monad; cbn.
      rewrite Hframe; cbn. eapply oneLoop_later; eassumption.
  - (* a message *)
    unfold exec, messageReceived. unfold_monad; cbn.
    rewrite dispatchMessage_world. destruct (listeners (host w)); exact Hone.
  - (* a storage write *)
    exact Hone.
Qed.

Lemma run_oneLoop (evs : list Event) (clock : Z) (w : World) :
  oneLoop clock w ->
  chronological clock evs ->
  exists clock', oneLoop clock' (run evs w).
Proof.
  revert clock w. induction evs as [|ev rest IH]; intros clock w Hone Hchrono; cbn [run].
  - eauto.
  - cbn [chronological] in Hchrono.
    destruct (eventTime ev) as [now|] eqn:Htime.
    + destruct Hchrono as [Hle Hrest]. apply (IH now); [|exact Hrest].
      pose proof (step_oneLoop ev clock w Hone) as Hstep.
      rewrite Htime in Hstep. apply Hstep. intros now' Heq. congruence.
    + apply (IH clock); [|exact Hchrono].
      pose proof (step_oneLoop ev clock w Hone) as Hstep.
      rewrite Htime in Hstep. apply Hstep. intros now' Heq. discriminate.
Qed.

End OneLoop.

(** There is never more than one heartbeat loop.  As long as the clock
    does not run backwards, after any sequence of calls and browser events
    at most one timer is pending, it is the one whose handle the service
    has recorded, and no timer is pending while a tick waits for the
    iframe to load. *)
Theorem never_two_heartbeat_loops `{Platform} (evs : list Event) (clock : Z) (w : World) :
  oneLoop clock w ->
  chronological clock evs ->
  let w' := run evs w in
  (timers (host w') = ∅ \/
   exists h t, timers (host w') = {[ h := t ]} /\
               scheduledHeartBeatRunning (svc w') = Some h) /\
  (pendingLoad w' = true -> timers (host w') = ∅).
Proof.
  intros Hone Hchrono. cbn zeta.
  destruct (run_oneLoop evs clock w Hone Hchrono) as (clock' & Hpending & Htimers).
  split; [assumption|]. intros Hp. apply (Hpending Hp).
Qed.

(** ** Restart *)

(** [stop] and then [start] inside the refresh window: the old timer is
    gone, the first tick of the new loop runs at once, and when it sends
    its probe the counter stands at 1, [checkSessionReceived] is reset and
    the new timer is the only addition to the pending timers. *)
Theorem stop_then_start_restarts_at_once `{Platform}
    (configId : string) (now : Z) (w : World) (h : TimerHandle) (frame : IFrame) (o : string) :
  let cl := {| cl_clientId := configId;
               cl_configId := clientId (config (host w) configId) |} in
  scheduledHeartBeatRunning (svc w) = Some h ->
  lastIFrameRefresh (svc w) + iframeRefreshInterval > now ->
  iframe (host w) = Some frame ->
  sendsProbe cl w = true ->
  URL_origin (default EmptyString (tick_checkSessionIframe cl w)) = Some o ->
  let w' := exec (start configId now) (exec stop w) in
  outstandingMessages (svc w') = 1 /\
  checkSessionReceived (svc w') = false /\
  scheduledHeartBeatRunning (svc w') = Some (nextHandle (host w)) /\
  timers (host w') =
    <[nextHandle (host w) := {| delay := heartBeatInterval; callback := cl |}]>
      (delete h (timers (host w))) /\
  posted (host w') =
    (posted (host w) ++
     [{| target := contentWindow frame;
         text := configId +:+ " " +:+ default EmptyString (tick_sessionState cl w);
         targetOrigin := o |}])%list.
Proof.
  intros cl Hh Hwindow Hframe Hsends Horigin. cbn zeta.
  set (w1 := {| svc := set_checkSessionReceived false
                         (set_scheduledHeartBeatRunning None (svc w));
                host := set_timers (delete h (timers (host w))) (nextHandle (host w))
                          (host w) |}).
  set (w2 := with_outstandingMessages 0 w1).
  assert (Hrun : exec (start configId now) (exec stop w) =
                 exec (reportUnhandled (pollServerSessionNext cl)) w2).
  { unfold exec. rewrite (stop_running_world w h Hh). cbn [snd]. fold w1.
    rewrite (start_not_running w1 configId now eq_refl).
    change (config (host w1)) with (config (host w)). fold cl. fold w2.
    rewrite (pollServerSessionRecur_in_window cl now w2 Hwindow). reflexivity. }
  rewrite Hrun. clear Hrun.
  assert (Hframe2 : iframe (host w2) = Some frame) by exact Hframe.
  assert (Hsends2 : sendsProbe cl w2 = true) by exact Hsends.
  assert (Horigin2 :
            URL_origin (default EmptyString (tick_checkSessionIframe cl w2)) = Some o)
    by exact Horigin.
  destruct (pollServerSessionNext_probe cl w2 frame o Hframe2 Hsends2 Horigin2)
    as (Hret & Hcount & Hposted & _).
  destruct (pollServerSessionNext_frame cl w2) as (Hflag & _).
  pose proof (pollServerSessionNext_outcome cl w2) as Hout.
  unfold exec, reportUnhandled in *.
  destruct (pollServerSessionNext cl w2) as [[[]|err] w3]; [|discriminate Hret].
  destruct Hout as (Hhandle & Htimers & _). cbn in *.
  repeat split; assumption.
Qed.

(** * The loop, the listener and the tenants *)

(** ** Beats *)

Section Beats.

Context `{Platform}.

Lemma pollServerSessionRecur_reload_errors (cl : Closure) (now : Z) (w : World)
    (endpoints : AuthWellKnownEndpoints) :
  lastIFrameRefresh (svc w) + iframeRefreshInterval <= now ->
  storedEndpoints (host w) !! cl_configId cl = Some endpoints ->
  errorsLogged (exec (pollServerSessionRecur cl now) w) = errorsLogged w.
Proof.
  intros Hwindow Hsome.
  unfold pollServerSessionRecur, init, subscribe, getOrCreateIframe, addIFrameToWindowBody,
    bindMessageEventToIframe, location_replace, errorsLogged.
  unfold_collaborators; unfold_monad; cbn.
  rewrite (gtb_false _ _ Hwindow), Hsome.
  destruct (iframe (host w)) as [frame|] eqn:Hframe; cbn;
    destruct (truthy (checkSessionIframe endpoints)); cbn;
    rewrite ?List.filter_app, ?length_app; cbn; lia.
Qed.

(** The tick of a beat, run on the world [w0] the timer and [init] have
    prepared. *)
Lemma beat_tick (cl : Closure) (w0 : World) :
  pendingLoad w0 = false ->
  sendsProbe cl w0 = true ->
  is_Some (URL_origin (default EmptyString (tick_checkSessionIframe cl w0))) ->
  let w' := exec (reportUnhandled (pollServerSessionNext cl)) w0 in
  looping cl w' /\
  outstandingMessages (svc w') = outstandingMessages (svc w0) + 1 /\
  errorsLogged w' =
    (errorsLogged w0 + if outstandingMessages (svc w0) + 1 >? 3 then 1 else 0)%nat /\
  unhandled (host w') = unhandled (host w0).
Proof.
  intros Hidle Hsends [o Ho]. cbn zeta.
  assert (exists frame, iframe (host w0) = Some frame) as [frame Hframe].
  { unfold sendsProbe in Hsends.
    destruct (iframe (host w0)) as [frame|]; [eauto|discriminate]. }
  destruct (pollServerSessionNext_probe cl w0 frame o Hframe Hsends Ho)
    as (Hret & Hcount & _ & _ & _ & Herrors).
  destruct (pollServerSessionNext_frame cl w0)
    as (_ & _ & Hsame & _ & _ & _ & _ & _ & Hunhandled & _).
  destruct (pollServerSessionNext_reads_same cl cl w0) as (Hsends' & Hurl' & _).
  pose proof (pollServerSessionNext_outcome cl w0) as Hout.
  unfold exec, reportUnhandled in *.
  destruct (pollServerSessionNext cl w0) as [[[]|err] w']; [|discriminate Hret].
  destruct Hout as (Hhandle & Htimers & _). cbn in *.
  split; [|split; [assumption|split; assumption]].
  unfold looping. split; [|split; [|split]].
  - eexists. split; [exact Hhandle|]. rewrite Htimers. apply lookup_insert_eq.
  - unfold pendingLoad in *. rewrite Hsame. exact Hidle.
  - rewrite Hsends'. exact Hsends.
  - rewrite Hurl'. eauto.
Qed.

(** One beat of a running loop: the timer fires, [init] lets the tick
    through at once or after the iframe has loaded again, the tick sends
    its probe and arms the next timer. *)
Lemma beat_looping (cl : Closure) (times : Z * Z) (w : World) :
  looping cl w ->
  let w' := beat times w in
  looping cl w' /\
  outstandingMessages (svc w') = outstandingMessages (svc w) + 1 /\
  errorsLogged w' =
    (errorsLogged w + if outstandingMessages (svc w) + 1 >? 3 then 1 else 0)%nat /\
  unhandled (host w') = unhandled (host w).
Proof.
  intros ((h & Hh & Hpending) & Hidle & Hsends & Hurl). cbn zeta.
  set (wt := without_timer h w).
  assert (Hfired : exec (step (TimerFired h (fst times))) w =
                   exec (pollServerSessionRecur cl (fst times)) wt).
  { cbn [step]. unfold exec.
    rewrite (timerFired_pending (fst times) w h _ Hpending). reflexivity. }
  unfold beat. rewrite Hh. cbn zeta. rewrite Hfired. clear Hfired. cbn [step].
  set (w1 := exec (pollServerSessionRecur cl (fst times)) wt).
  assert (Hidle_t : pendingLoad wt = false) by exact Hidle.
  assert (Hsends_t : sendsProbe cl wt = true) by exact Hsends.
  assert (Hurl_t : is_Some (URL_origin (default EmptyString (tick_checkSessionIframe cl wt))))
    by exact Hurl.
  destruct (Z_gt_le_dec (lastIFrameRefresh (svc wt) + iframeRefreshInterval) (fst times))
    as [Hwindow|Hwindow].
  - (* inside the refresh window *)
    assert (Hw1 : w1 = exec (reportUnhandled (pollServerSessionNext cl)) wt).
    { unfold w1, exec.
      rewrite (pollServerSessionRecur_in_window cl (fst times) wt Hwindow). reflexivity. }
    destruct (beat_tick cl wt Hidle_t Hsends_t Hurl_t)
      as (Hloop & Hcount & Herrors & Hunhandled).
    cbn zeta in *. rewrite <- Hw1 in *.
    pose proof Hloop as (_ & Hidle' & _). rewrite Hidle'.
    split; [assumption|]. split; [exact Hcount|]. split; [exact Herrors|exact Hunhandled].
  - (* past it: the iframe is sent to reload, and loads *)
    assert (exists endpoints, storedEndpoints (host wt) !! cl_configId cl = Some endpoints)
      as [endpoints Hstored].
    { unfold sendsProbe, tick_checkSessionIframe in Hsends_t.
      destruct (storedEndpoints (host wt) !! cl_configId cl) as [endpoints|]; [eauto|].
      cbn in Hsends_t. rewrite andb_false_r in Hsends_t. discriminate. }
    destruct (pollServerSessionRecur_waits_for_load cl (fst times) wt endpoints Hwindow Hstored)
      as (_ & Hsvc & _ & _ & Hendpoints & Hstate & _ & Hunhandled & frame & Hframe & Hload).
    pose proof (pollServerSessionRecur_reload_errors cl (fst times) wt endpoints Hwindow Hstored)
      as Herrors1.
    fold w1 in Hsvc, Hendpoints, Hstate, Hunhandled, Hframe, Herrors1.
    assert (Hwaiting : pendingLoad w1 = true).
    { unfold pendingLoad. rewrite Hframe. cbn. rewrite Hload. reflexivity. }
    rewrite Hwaiting.
    set (w0 := {| svc := set_lastIFrameRefresh (snd times) (svc w1);
                  host := set_iframe
                            (Some {| contentWindow := contentWindow frame;
                                     location := location frame;
                                     onload := Some {| subscriber := cl; stopped := true |} |})
                            (host w1) |}).
    assert (Hloaded : exec (iframeLoaded (snd times)) w1 =
                      exec (reportUnhandled (pollServerSessionNext cl)) w0).
    { unfold exec. rewrite (iframeLoaded_pending (snd times) w1 frame cl Hframe Hload).
      reflexivity. }
    rewrite Hloaded. clear Hloaded.
    assert (Hidle0 : pendingLoad w0 = false) by reflexivity.
    assert (Hsends0 : sendsProbe cl w0 = true).
    { unfold sendsProbe, tick_sessionState, tick_checkSessionIframe in *.
      subst w0; cbn. rewrite Hendpoints, Hstate.
      destruct (iframe (host wt)); [exact Hsends_t|discriminate]. }
    assert (Hurl0 : is_Some (URL_origin (default EmptyString (tick_checkSessionIframe cl w0)))).
    { unfold tick_checkSessionIframe in *. subst w0; cbn. rewrite Hendpoints. exact Hurl_t. }
    destruct (beat_tick cl w0 Hidle0 Hsends0 Hurl0)
      as (Hloop & Hcount & Herrors & Hunhandled0).
    cbn zeta in *.
    assert (Hcount0 : outstandingMessages (svc w0) = outstandingMessages (svc w))
      by (subst w0; cbn; rewrite Hsvc; reflexivity).
    assert (Herrors0 : errorsLogged w0 = errorsLogged w)
      by (transitivity (errorsLogged w1); [reflexivity|exact Herrors1]).
    assert (Hunhandled00 : unhandled (host w0) = unhandled (host w))
      by (subst w0; cbn; rewrite Hunhandled; reflexivity).
    split; [assumption|]. rewrite Hcount, Herrors, Hunhandled0, Hcount0, Herrors0, Hunhandled00.
    auto.
Qed.

Lemma beats_snoc (schedule : list (Z * Z)) (times : Z * Z) (w : World) :
  beats (schedule ++ [times]) w = beat times (beats schedule w).
Proof. unfold beats. rewrite fold_left_app. reflexivity. Qed.

Lemma beats_looping (cl : Closure) (schedule : list (Z * Z)) (w : World) :
  looping cl w ->
  looping cl (beats schedule w) /\
  outstandingMessages (svc (beats schedule w)) =
    outstandingMessages (svc w) + Z.of_nat (length schedule) /\
  unhandled (host (beats schedule w)) = unhandled (host w).
Proof.
  intros Hloop. induction schedule as [|times schedule IH] using rev_ind.
  - unfold beats. cbn [fold_left length].
    split; [exact Hloop|split; [lia|reflexivity]].
  - destruct IH as (IHloop & IHcount & IHunhandled).
    rewrite beats_snoc.
    destruct (beat_looping cl times (beats schedule w) IHloop)
      as (Hloop' & Hcount & _ & Hunhandled).
    cbn zeta in *. rewrite length_app. cbn [length].
    split; [exact Hloop'|split; [|congruence]].
    rewrite Hcount, IHcount. lia.
Qed.

(** The first beat of a loop that is going to send probes: [start] sets
    the counter to 0, the first tick sends the first probe. *)
Lemma firstBeat_looping (configId : string) (times : Z * Z) (w : World) :
  let cl := {| cl_clientId := configId;
               cl_configId := clientId (config (host w) configId) |} in
  scheduledHeartBeatRunning (svc w) = None ->
  pendingLoad w = false ->
  (lastIFrameRefresh (svc w) + iframeRefreshInterval > fst times ->
   is_Some (iframe (host w))) ->
  truthy (Some configId) = true ->
  truthy (tick_sessionState cl w) = true ->
  truthy (tick_checkSessionIframe cl w) = true ->
  is_Some (URL_origin (default EmptyString (tick_checkSessionIframe cl w))) ->
  let w' := firstBeat configId times w in
  looping cl w' /\
  outstandingMessages (svc w') = 1 /\
  errorsLogged w' = errorsLogged w /\
  unhandled (host w') = unhandled (host w).
Proof.
  intros cl Hnone Hidle Hframe Hclient Hstate Hurl Horigin. cbn zeta.
  set (w0 := with_outstandingMessages 0 w).
  assert (Hstart : exec (step (Call_start configId (fst times))) w =
                   exec (pollServerSessionRecur cl (fst times)) w0).
  { cbn [step]. unfold exec. rewrite (start_not_running w configId (fst times) Hnone).
    reflexivity. }
  unfold firstBeat. cbn zeta. rewrite Hstart. clear Hstart. cbn [step].
  set (w1 := exec (pollServerSessionRecur cl (fst times)) w0).
  assert (Hready : forall w2 : World,
            is_Some (iframe (host w2)) ->
            storedEndpoints (host w2) = storedEndpoints (host w) ->
            storedSessionState (host w2) = storedSessionState (host w) ->
            sendsProbe cl w2 = true /\
            is_Some (URL_origin (default EmptyString (tick_checkSessionIframe cl w2)))).
  { intros w2 [frame Hsome] Hendpoints Hstates.
    unfold sendsProbe, tick_sessionState, tick_checkSessionIframe in *.
    rewrite Hsome, Hendpoints, Hstates. cbn [cl_clientId cl].
    rewrite Hclient, Hstate, Hurl. split; [reflexivity|exact Horigin]. }
  destruct (Z_gt_le_dec (lastIFrameRefresh (svc w0) + iframeRefreshInterval) (fst times))
    as [Hwindow|Hwindow].
  - assert (Hw1 : w1 = exec (reportUnhandled (pollServerSessionNext cl)) w0).
    { unfold w1, exec.
      rewrite (pollServerSessionRecur_in_window cl (fst times) w0 Hwindow). reflexivity. }
    destruct (Hready w0 (Hframe Hwindow) eq_refl eq_refl) as [Hsends0 Hurl0].
    destruct (beat_tick cl w0 Hidle Hsends0 Hurl0)
      as (Hloop & Hcount & Herrors & Hunhandled).
    cbn zeta in *. rewrite <- Hw1 in *.
    pose proof Hloop as (_ & Hidle' & _). rewrite Hidle'.
    split; [assumption|]. rewrite Hcount, Herrors, Hunhandled. subst w0; cbn.
    split; [reflexivity|]. split; [|reflexivity].
    change (errorsLogged (with_outstandingMessages 0 w)) with (errorsLogged w).
    replace (0 + 1 >? 3) with false by reflexivity. lia.
  - assert (exists endpoints, storedEndpoints (host w0) !! cl_configId cl = Some endpoints)
      as [endpoints Hstored].
    { unfold tick_checkSessionIframe in Hurl.
      destruct (storedEndpoints (host w) !! cl_configId cl) as [endpoints|] eqn:Hlookup;
        [exists endpoints; exact Hlookup|discriminate]. }
    destruct (pollServerSessionRecur_waits_for_load cl (fst times) w0 endpoints Hwindow Hstored)
      as (_ & Hsvc & _ & _ & Hendpoints & Hstates & _ & Hunhandled & frame & Hsome & Hload).
    pose proof (pollServerSessionRecur_reload_errors cl (fst times) w0 endpoints Hwindow Hstored)
      as Herrors1.
    fold w1 in Hsvc, Hendpoints, Hstates, Hunhandled, Hsome, Herrors1.
    assert (Hwaiting : pendingLoad w1 = true).
    { unfold pendingLoad. rewrite Hsome. cbn. rewrite Hload. reflexivity. }
    rewrite Hwaiting.
    set (w2 := {| svc := set_lastIFrameRefresh (snd times) (svc w1);
                  host := set_iframe
                            (Some {| contentWindow := contentWindow frame;
                                     location := location frame;
                                     onload := Some {| subscriber := cl; stopped := true |} |})
                            (host w1) |}).
    assert (Hloaded : exec (iframeLoaded (snd times)) w1 =
                      exec (reportUnhandled (pollServerSessionNext cl)) w2).
    { unfold exec. rewrite (iframeLoaded_pending (snd times) w1 frame cl Hsome Hload).
      reflexivity. }
    rewrite Hloaded. clear Hloaded.
    assert (Hidle2 : pendingLoad w2 = false) by reflexivity.
    destruct (Hready w2 (ltac:(subst w2; cbn; eauto)) Hendpoints Hstates) as [Hsends2 Hurl2].
    destruct (beat_tick cl w2 Hidle2 Hsends2 Hurl2)
      as (Hloop & Hcount & Herrors & Hunhandled2).
    cbn zeta in *.
    assert (Hcount2 : outstandingMessages (svc w2) = 0)
      by (subst w2; cbn; rewrite Hsvc; reflexivity).
    assert (Herrors2 : errorsLogged w2 = errorsLogged w)
      by (transitivity (errorsLogged w1); [reflexivity|exact Herrors1]).
    assert (Hunhandled22 : unhandled (host w2) = unhandled (host w))
      by (subst w2; cbn; rewrite Hunhandled; reflexivity).
    split; [assumption|].
    rewrite Hcount, Herrors, Hunhandled2, Hcount2, Herrors2, Hunhandled22.
    replace (0 + 1 >? 3) with false by reflexivity.
    split; [reflexivity|]. split; [lia|reflexivity].
Qed.

(** The beat that follows [schedule] in a loop that has sent [n] probes
    since the counter was last at 0 runs tick number [n + length schedule
    + 1]. *)
Lemma beat_after_beats (cl : Closure) (n : nat) (schedule : list (Z * Z)) (times : Z * Z)
    (w : World) :
  looping cl w ->
  outstandingMessages (svc w) = Z.of_nat n ->
  let before := beats schedule w in
  let after := beat times before in
  let tick := (n + length schedule + 1)%nat in
  outstandingMessages (svc after) = Z.of_nat tick /\
  errorsLogged after = (errorsLogged before + if (4 <=? tick)%nat then 1 else 0)%nat /\
  unhandled (host after) = unhandled (host w) /\
  looping cl after.
Proof.
  intros Hloop Hn. cbn zeta.
  destruct (beats_looping cl schedule w Hloop) as (Hbefore & Hcount & Hunhandled).
  destruct (beat_looping cl times (beats schedule w) Hbefore)
    as (Hafter & Hcount' & Herrors & Hunhandled').
  cbn zeta in *.
  assert (Hcounted : outstandingMessages (svc (beats schedule w)) + 1 =
                     Z.of_nat (n + length schedule + 1)) by lia.
  split; [rewrite Hcount'; exact Hcounted|].
  split; [|split; [congruence|exact Hafter]].
  rewrite Herrors, Hcounted.
  destruct (Z.of_nat (n + length schedule + 1) >? 3) eqn:Hgt;
    destruct (4 <=? n + length schedule + 1)%nat eqn:Hle; try reflexivity.
  - apply Z.gtb_lt in Hgt. apply Nat.leb_gt in Hle. lia.
  - rewrite Z.gtb_ltb in Hgt. apply Z.ltb_ge in Hgt. apply Nat.leb_le in Hle. lia.
Qed.

Lemma iframeLoaded_refresh_time (now : Z) (w : World) :
  is_Some (iframe (host w) ≫= onload) ->
  lastIFrameRefresh (svc (exec (iframeLoaded now) w)) = now.
Proof.
  intros [handler Hhandler].
  destruct (iframe (host w)) as [frame|] eqn:Hframe; [|discriminate].
  cbn in Hhandler. destruct handler as [pending []].
  - unfold exec, iframeLoaded. unfold_collaborators; unfold_monad; cbn.
    rewrite Hframe; cbn. rewrite Hhandler; cbn. reflexivity.
  - unfold exec at 1. rewrite (iframeLoaded_pending now w frame pending Hframe Hhandler).
    set (w0 := {| svc := set_lastIFrameRefresh now (svc w); host := _ |}).
    destruct (pollServerSessionNext_frame pending w0) as (_ & Hrefresh & _).
    unfold exec, reportUnhandled in *.
    destruct (pollServerSessionNext pending w0) as [[[]|err] w']; cbn in *; exact Hrefresh.
Qed.

End Beats.

(** ** A message after [stop] *)

(** C5, as the code has it: [stop] leaves the [message] listener where it
    is, and the handler does not look at the timer handle.  A message
    delivered after [stop] is handled as one delivered while the loop
    runs, whatever the handle holds: it sets [outstandingMessages] to 0,
    so it is no no-op; it does not set [checkSessionReceived], fire the
    event or publish on the change stream. *)
Theorem C5_message_after_stop_is_handled_as_before (m : MessageEvent) (w : World) :
  listeners (host w) <> [] ->
  let stopped := exec stop w in
  let delivered := exec (messageReceived m) stopped in
  scheduledHeartBeatRunning (svc stopped) = None /\
  listeners (host stopped) = listeners (host w) /\
  delivered = with_outstandingMessages 0 stopped /\
  exec (messageReceived m) w = with_outstandingMessages 0 w /\
  (forall h : option TimerHandle,
     exec (messageReceived m) (with_scheduledHeartBeatRunning h stopped) =
     with_scheduledHeartBeatRunning h delivered) /\
  checkSessionReceived (svc delivered) = checkSessionReceived (svc stopped) /\
  firedEvents (host delivered) = firedEvents (host stopped) /\
  published (host delivered) = published (host stopped).
Proof.
  intros Hbound. cbn zeta.
  assert (Hhandled : forall w0 : World,
            listeners (host w0) = listeners (host w) ->
            exec (messageReceived m) w0 = with_outstandingMessages 0 w0).
  { intros w0 Hsame. unfold exec, messageReceived. unfold_monad; cbn.
    rewrite dispatchMessage_world, Hsame.
    destruct (listeners (host w)); [congruence|reflexivity]. }
  assert (Hstop : scheduledHeartBeatRunning (svc (exec stop w)) = None /\
                  listeners (host (exec stop w)) = listeners (host w)).
  { destruct (scheduledHeartBeatRunning (svc w)) as [h|] eqn:Hh; unfold exec.
    - rewrite (stop_running_world w h Hh). cbn. auto.
    - rewrite (stop_not_running w Hh). cbn. auto. }
  destruct Hstop as [Hnone Hlisteners].
  rewrite (Hhandled (exec stop w) Hlisteners), (Hhandled w eq_refl).
  split; [exact Hnone|]. split; [exact Hlisteners|]. split; [reflexivity|].
  split; [reflexivity|]. split; [|cbn; auto].
  intros h.
  rewrite (Hhandled (with_scheduledHeartBeatRunning h (exec stop w)) Hlisteners).
  reflexivity.
Qed.

(** ** Tenants *)

(** C7, as the code has it: there is one timer handle, one counter, one
    refresh time and one flag for all tenants.  Once [start] for tenant
    [A] has recorded its handle, [start] for any tenant [B] does nothing.
    The refresh window that an iframe load has opened holds for every
    tenant: after [stop], a [start] for [B] inside it does not go to the
    iframe and runs the first tick of [B] at once.  A message delivered
    to the listener leaves [serverStateChanged] for [B] as it was. *)
Theorem C7_one_monitor_state_for_all_tenants `{Platform}
    (A B : string) (nowA now loaded : Z) (m : MessageEvent) (w : World) :
  (let wA := exec (start A nowA) w in
   is_Some (scheduledHeartBeatRunning (svc wA)) ->
   start B now wA = (Returned tt, wA)) /\
  (let wL := exec stop (exec (iframeLoaded loaded) w) in
   let cl := {| cl_clientId := B; cl_configId := clientId (config (host wL) B) |} in
   is_Some (iframe (host w) ≫= onload) ->
   loaded + iframeRefreshInterval > now ->
   start B now wL =
   reportUnhandled (pollServerSessionNext cl) (with_outstandingMessages 0 wL)) /\
  fst (serverStateChanged B (exec (messageReceived m) w)) = fst (serverStateChanged B w).
Proof.
  split; [|split].
  - cbn zeta. intros [h Hh]. eapply start_running; exact Hh.
  - cbn zeta. intros Hhandler Hwindow.
    pose proof (iframeLoaded_refresh_time loaded w Hhandler) as Hrefresh.
    set (w1 := exec (iframeLoaded loaded) w) in *.
    assert (Hstop : scheduledHeartBeatRunning (svc (exec stop w1)) = None /\
                    lastIFrameRefresh (svc (exec stop w1)) = loaded).
    { destruct (scheduledHeartBeatRunning (svc w1)) as [h|] eqn:Hh; unfold exec.
      - rewrite (stop_running_world w1 h Hh). cbn. auto.
      - rewrite (stop_not_running w1 Hh). cbn. auto. }
    destruct Hstop as [Hnone Hloaded].
    set (wL := exec stop w1) in *.
    rewrite (start_not_running wL B now Hnone).
    apply pollServerSessionRecur_in_window. cbn. rewrite Hloaded. exact Hwindow.
  - unfold exec, messageReceived, serverStateChanged.
    unfold_collaborators; unfold_monad; cbn.
    rewrite dispatchMessage_world. destruct (listeners (host w)); reflexivity.
Qed.

(** ** Unanswered probes *)

(** C8, as the code has it: a tick logs the error of line 130 exactly when
    the counter it leaves behind exceeds 3, and then once.  Take a loop
    whose ticks send their probes, with no message delivered between the
    beats -- every delivered message sets the counter back to 0.  [start]
    and its first tick leave the counter at 1 and log no error; each
    further beat (the timer fires, [init] lets the tick through at once or
    after the iframe has loaded again) raises the counter by one, logs one
    error exactly when the tick is the fourth or a later one -- exactly
    when the counter then exceeds 3 -- raises no fault and leaves the next
    timer pending under the recorded handle: the loop keeps running and
    keeps counting.  The same holds from any running loop that has sent
    [n] probes since the counter was last at 0. *)
Theorem C8_unanswered_beats_log_from_the_fourth_tick `{Platform}
    (configId : string) (first : Z * Z) (schedule : list (Z * Z)) (times : Z * Z)
    (w : World) :
  let cl := {| cl_clientId := configId;
               cl_configId := clientId (config (host w) configId) |} in
  scheduledHeartBeatRunning (svc w) = None ->
  pendingLoad w = false ->
  (lastIFrameRefresh (svc w) + iframeRefreshInterval > fst first ->
   is_Some (iframe (host w))) ->
  truthy (Some configId) = true ->
  truthy (tick_sessionState cl w) = true ->
  truthy (tick_checkSessionIframe cl w) = true ->
  is_Some (URL_origin (default EmptyString (tick_checkSessionIframe cl w))) ->
  let started := firstBeat configId first w in
  let before := beats schedule started in
  let after := beat times before in
  let tick := (length schedule + 2)%nat in
  (forall w0 w0' : World,
     pollServerSessionNext cl w0 = (Returned tt, w0') ->
     errorsLogged w0' =
       (errorsLogged w0 + if outstandingMessages (svc w0') >? 3 then 1 else 0)%nat) /\
  outstandingMessages (svc started) = 1 /\
  errorsLogged started = errorsLogged w /\
  outstandingMessages (svc after) = Z.of_nat tick /\
  errorsLogged after = (errorsLogged before + if (4 <=? tick)%nat then 1 else 0)%nat /\
  (errorsLogged after = (errorsLogged before + 1)%nat <->
   outstandingMessages (svc after) > 3) /\
  unhandled (host after) = unhandled (host w) /\
  looping cl after /\
  (forall (running : World) (n : nat) (further : list (Z * Z)) (next : Z * Z),
     looping cl running ->
     outstandingMessages (svc running) = Z.of_nat n ->
     let before' := beats further running in
     let after' := beat next before' in
     outstandingMessages (svc after') = Z.of_nat (n + length further + 1) /\
     errorsLogged after' =
       (errorsLogged before' + if (4 <=? n + length further + 1)%nat then 1 else 0)%nat /\
     unhandled (host after') = unhandled (host running) /\
     looping cl after').
Proof.
  intros cl Hnone Hidle Hframe Hclient Hstate Hurl Horigin. cbn zeta. split.
  { intros w0 w0' Hrun. pose proof (pollServerSessionNext_errors cl w0) as Herr.
    rewrite Hrun in Herr. exact Herr. }
  destruct (firstBeat_looping configId first w Hnone Hidle Hframe Hclient Hstate Hurl Horigin)
    as (Hloop & Hone & Hquiet & Hunhandled).
  cbn zeta in *. fold cl in Hloop.
  destruct (beat_after_beats cl 1 schedule times (firstBeat configId first w) Hloop Hone)
    as (Hcount & Herrors & Hunhandled' & Hafter).
  cbn zeta in *.
  replace (1 + length schedule + 1)%nat with (length schedule + 2)%nat in * by lia.
  split; [exact Hone|]. split; [exact Hquiet|]. split; [exact Hcount|].
  split; [exact Herrors|]. split; [|split; [congruence|split; [exact Hafter|]]].
  - rewrite Herrors, Hcount.
    destruct (4 <=? length schedule + 2)%nat eqn:Hle.
    + apply Nat.leb_le in Hle. split; intros _; [lia|reflexivity].
    + apply Nat.leb_gt in Hle. split; intros Hcontra; lia.
  - intros running n further next Hrunning Hn.
    apply (beat_after_beats cl n further next running Hrunning Hn).
Qed.

(** * The scenarios, evaluated *)

#[local] Existing Instance browser.

(** The concrete worlds are what the definitions say they are. *)
Example world_waiting_frame : iframe (host world_waiting) = Some frame_waiting.
Proof. vm_compute. reflexivity. Qed.

Example world_running_frame : iframe (host world_running) = Some frame_loaded.
Proof. vm_compute. reflexivity. Qed.

Example world_running_service :
  svc world_running =
  {| checkSessionReceived := false; scheduledHeartBeatRunning := Some 1%positive;
     lastIFrameRefresh := 1000100; outstandingMessages := 1;
     checkSessionChangedInternal := false |}.
Proof. vm_compute. reflexivity. Qed.

(** ** C1 *)

(** C1 fails on the code: the tenant's iframe is there, no session state
    is stored, and the first tick takes the change stream from [false] to
    [true]. *)
Lemma C1_counterexample_first_tick_publishes_changed :
  let before := world_waiting_noSessionState in
  let after := exec (iframeLoaded 1000100) before in
  is_Some (iframe (host before)) /\
  storedSessionState (host before) = ∅ /\
  checkSessionChangedInternal (svc before) = false /\
  checkSessionChangedInternal (svc after) = true /\
  published (host after) = [true] /\
  checkSessionChangedInternal (svc after) <> checkSessionChangedInternal (svc before).
Proof.
  vm_compute. repeat split; eauto. discriminate.
Qed.

Lemma C1_witness :
  iframe (host world_waiting_noSessionState) = Some frame_waiting /\
  truthy (Some (cl_clientId scenarioClosure)) = true /\
  truthy (tick_sessionState scenarioClosure world_waiting_noSessionState)
  && truthy (tick_checkSessionIframe scenarioClosure world_waiting_noSessionState) = false /\
  checkSessionChangedInternal
    (svc (exec (pollServerSessionNext scenarioClosure) world_waiting_noSessionState)) = true.
Proof.
  assert (Hframe : iframe (host world_waiting_noSessionState) = Some frame_waiting)
    by (vm_compute; reflexivity).
  assert (Hclient : truthy (Some (cl_clientId scenarioClosure)) = true)
    by (vm_compute; reflexivity).
  assert (Hmissing :
            truthy (tick_sessionState scenarioClosure world_waiting_noSessionState)
            && truthy (tick_checkSessionIframe scenarioClosure world_waiting_noSessionState)
            = false)
    by (vm_compute; reflexivity).
  refine (conj Hframe (conj Hclient (conj Hmissing _))).
  exact (proj1 (proj2 (proj2
    (C1_tick_without_session_state_publishes_changed
       scenarioClosure world_waiting_noSessionState frame_waiting
       Hframe Hclient Hmissing)))).
Defined.

(** ** C2 *)

(** C2 on the code.  With the tenant's data stored under "t1", [start]
    hands the tick the client identifier as storage key: nothing is found,
    nothing is posted and no timer is armed.  With the data stored under
    "abc" as well, the probe reads "t1 s1", not "abc s1"; and the message
    from the provider, delivered to the bound listener, leaves
    [serverStateChanged("t1")] at [false]. *)
Theorem C2_scenario_on_the_code :
  let events :=
    [Call_start "t1" 1000000; IframeLoaded 1000100; MessageReceived changedFromIdp] in
  let w := run events scenarioWorld in
  let w2 := run events scenarioWorld_bothKeys in
  posted (host w) = [] /\
  timers (host w) = ∅ /\
  fst (serverStateChanged "t1" w) = Returned false /\
  posted (host w2) =
    [{| target := checkSessionFrame; text := "t1 s1";
        targetOrigin := "https://idp.example" |}] /\
  fst (serverStateChanged "t1" w2) = Returned false.
Proof.
  vm_compute. repeat split; reflexivity.
Qed.

(** With the two arguments in the order the parameters are declared, and
    the event in the handler's first parameter, the scenario goes as C2
    says. *)
Example C2_scenario_with_arguments_in_declared_order :
  let w1 := run [IframeLoaded 1000100]
              (exec (pollServerSession "abc" "t1" 1000000) scenarioWorld) in
  let w2 := exec (messageHandler (JsMessageEvent changedFromIdp) (JsString "t1")) w1 in
  posted (host w1) =
    [{| target := checkSessionFrame; text := "abc s1";
        targetOrigin := "https://idp.example" |}] /\
  fst (serverStateChanged "t1" w2) = Returned true.
Proof.
  vm_compute. split; reflexivity.
Qed.

(** ** C3 *)

(** C3 fails on the code: one probe is outstanding, a message from another
    origin arrives, and the counter is back at 0 -- when the handler is
    called as it is declared, and when the message comes through the
    listener. *)
Lemma C3_counterexample_other_origin_resets_counter :
  let e := JsMessageEvent changedFromElsewhere in
  let after := exec (messageHandler e (JsString "t1")) world_running in
  let delivered := run [MessageReceived changedFromElsewhere] world_running in
  originAccepted e (JsString "t1") world_running = false /\
  outstandingMessages (svc world_running) = 1 /\
  outstandingMessages (svc after) = 0 /\
  after <> world_running /\
  outstandingMessages (svc delivered) = 0.
Proof.
  vm_compute. repeat split; try reflexivity. intros Heq. discriminate Heq.
Qed.

Lemma C3_witness :
  originAccepted (JsMessageEvent changedFromElsewhere) (JsString "t1") world_running = false /\
  messageHandler (JsMessageEvent changedFromElsewhere) (JsString "t1") world_running =
  (Returned tt, with_outstandingMessages 0 world_running).
Proof.
  assert (Horigin :
            originAccepted (JsMessageEvent changedFromElsewhere) (JsString "t1") world_running
            = false)
    by (vm_compute; reflexivity).
  split; [assumption|].
  exact (C3_other_origin_only_resets_outstandingMessages _ _ _ Horigin).
Defined.

(** ** C4 *)

(** C4 fails on the code: nothing is stored, [start] logs its warning, and
    there is neither a timer nor a load handler left to fire a second
    tick. *)
Lemma C4_counterexample_no_endpoints_no_next_tick :
  let after := run [Call_start "t1" 1000000] scenarioWorld_noStorage in
  logs (host after) =
    [{| level := LevelWarning; logConfigId := JsString "abc";
        message := InitEndpointsUndefined |}] /\
  scheduledHeartBeatRunning (svc after) = None /\
  timers (host after) = ∅ /\
  iframe (host after) = None /\
  run [TimerFired 1%positive 1003000; IframeLoaded 1003000] after = after.
Proof.
  vm_compute. repeat split; reflexivity.
Qed.

Lemma C4_witness :
  (exists w',
     pollServerSessionNext scenarioClosure world_waiting = (Returned tt, w') /\
     scheduledHeartBeatRunning (svc w') = Some (nextHandle (host world_waiting))) /\
  lastIFrameRefresh (svc world_running) + iframeRefreshInterval > 1003100 /\
  pollServerSessionRecur scenarioClosure 1003100 world_running =
    reportUnhandled (pollServerSessionNext scenarioClosure) world_running /\
  lastIFrameRefresh (svc scenarioWorld_noStorage) + iframeRefreshInterval <= 1000000 /\
  storedEndpoints (host scenarioWorld_noStorage) !! cl_configId scenarioClosure = None /\
  timers (host (exec (pollServerSessionRecur scenarioClosure 1000000) scenarioWorld_noStorage))
  = timers (host scenarioWorld_noStorage).
Proof.
  assert (Hwindow : lastIFrameRefresh (svc world_running) + iframeRefreshInterval > 1003100)
    by (vm_compute; reflexivity).
  assert (Helapsed :
            lastIFrameRefresh (svc scenarioWorld_noStorage) + iframeRefreshInterval <= 1000000)
    by (vm_compute; discriminate).
  assert (Hnone :
            storedEndpoints (host scenarioWorld_noStorage) !! cl_configId scenarioClosure = None)
    by (vm_compute; reflexivity).
  refine (conj _ (conj Hwindow (conj _ (conj Helapsed (conj Hnone _))))).
  - destruct (proj1 (C4_tick_reschedules_when_channel_ready
                       scenarioClosure 1000000 world_waiting))
      as (w' & Hrun & Hhandle & _).
    + intros _. vm_compute. eauto.
    + exists w'. split; assumption.
  - exact (proj1 (proj2 (C4_tick_reschedules_when_channel_ready
                           scenarioClosure 1003100 world_running)) Hwindow).
  - exact (proj1 (proj2 (proj2
      (proj2 (proj2 (C4_tick_reschedules_when_channel_ready
                       scenarioClosure 1000000 scenarioWorld_noStorage))
         Helapsed Hnone)))).
Defined.

(** ** C5 *)

(** C5 fails on the code: [stop()] has cancelled the timer and cleared
    the handle; the listener is still there, and the message delivered
    afterwards sets the counter from 1 back to 0. *)
Lemma C5_counterexample_message_after_stop_resets_counter :
  let delivered := run [MessageReceived changedFromIdp] world_stopped in
  scheduledHeartBeatRunning (svc world_stopped) = None /\
  timers (host world_stopped) = ∅ /\
  listeners (host world_stopped) = ["abc"] /\
  outstandingMessages (svc world_stopped) = 1 /\
  outstandingMessages (svc delivered) = 0 /\
  delivered <> world_stopped.
Proof.
  vm_compute. repeat split; try reflexivity. intros Heq. discriminate Heq.
Qed.

Lemma C5_witness :
  listeners (host world_running) <> [] /\
  listeners (host (exec stop world_running)) = listeners (host world_running) /\
  exec (messageReceived changedFromIdp) (exec stop world_running) =
  with_outstandingMessages 0 (exec stop world_running).
Proof.
  assert (Hbound : listeners (host world_running) <> [])
    by (vm_compute; discriminate).
  destruct (C5_message_after_stop_is_handled_as_before changedFromIdp world_running Hbound)
    as (_ & Hlisteners & Hdelivered & _).
  exact (conj Hbound (conj Hlisteners Hdelivered)).
Defined.

(** ** C6 *)

(** C6 fails on the code.  The change stream became [true] in the first
    cycle; after [stop()] and a fresh [start()] -- which sends a probe --
    it is still [true].  And when a trusted "changed" is handled while no
    handle is recorded, the fresh [start()] leaves the flag set:
    [serverStateChanged("t1")] is [true] right after it. *)
Lemma C6_counterexample_start_resets_neither_flag_nor_stream :
  let restarted := run [Call_start "t1" 1000200] world_stopped_after_publishing in
  let changed :=
    exec (messageHandler (JsMessageEvent changedFromIdp) (JsString "t1"))
      world_stopped_after_publishing in
  let restarted' := run [Call_start "t1" 1000200] changed in
  scheduledHeartBeatRunning (svc world_stopped_after_publishing) = None /\
  checkSessionChangedInternal (svc world_stopped_after_publishing) = true /\
  length (posted (host restarted)) = 1%nat /\
  checkSessionChangedInternal (svc restarted) = true /\
  published (host restarted) = published (host world_stopped_after_publishing) /\
  scheduledHeartBeatRunning (svc changed) = None /\
  checkSessionReceived (svc restarted') = true /\
  fst (serverStateChanged "t1" restarted') = Returned true.
Proof.
  vm_compute. repeat split; reflexivity.
Qed.

Lemma C6_witness :
  scheduledHeartBeatRunning (svc world_stopped_after_publishing) = None /\
  checkSessionReceived (svc (exec (start "t1" 1000200) world_stopped_after_publishing)) =
  checkSessionReceived (svc world_stopped_after_publishing).
Proof.
  assert (Hidle : scheduledHeartBeatRunning (svc world_stopped_after_publishing) = None)
    by (vm_compute; reflexivity).
  refine (conj Hidle _).
  exact (proj1 (proj2 (proj2
    (C6_start_resets_outstandingMessages_only "t1" 1000200
       world_stopped_after_publishing Hidle)))).
Defined.

(** ** C7 *)

(** C7 fails on the code.  Started on a fresh page, tenant "t2" has sent
    no probe and has no timer when [start] returns: its first tick waits
    for the iframe.  Started after a heartbeat of tenant "t1" that has
    been stopped, it has: the refresh time "t1" left behind lets the first
    tick of "t2" through.  And started while "t1" runs, "t2" gets nothing
    at all: the one timer is the one of "t1". *)
Lemma C7_counterexample_heartbeat_of_t1_changes_what_t2_gets :
  let alone := run [Call_start "t2" 1000200] scenarioWorld_bothKeys in
  let after_t1 :=
    run [Call_start "t1" 1000000; IframeLoaded 1000100; Call_stop; Call_start "t2" 1000200]
      scenarioWorld_bothKeys in
  let during_t1 := run [Call_start "t2" 1000200] world_running in
  "t1" <> "t2" /\
  outstandingMessages (svc alone) = 0 /\
  timers (host alone) = ∅ /\
  outstandingMessages (svc after_t1) = 1 /\
  timers (host after_t1) =
    {[ 2%positive := {| delay := heartBeatInterval;
                        callback := {| cl_clientId := "t2"; cl_configId := "abc" |} |} ]} /\
  during_t1 = world_running /\
  timers (host during_t1) =
    {[ 1%positive := {| delay := heartBeatInterval; callback := scenarioClosure |} ]}.
Proof.
  vm_compute. repeat split; try reflexivity. discriminate.
Qed.

Lemma C7_witness :
  is_Some (scheduledHeartBeatRunning (svc (exec (start "t1" 1000200) world_stopped))) /\
  start "t2" 1000300 (exec (start "t1" 1000200) world_stopped) =
    (Returned tt, exec (start "t1" 1000200) world_stopped) /\
  is_Some (iframe (host world_waiting) ≫= onload) /\
  1000100 + iframeRefreshInterval > 1000200 /\
  start "t2" 1000200 (exec stop (exec (iframeLoaded 1000100) world_waiting)) =
  reportUnhandled
    (pollServerSessionNext
       {| cl_clientId := "t2";
          cl_configId :=
            clientId (config (host (exec stop (exec (iframeLoaded 1000100) world_waiting)))
                        "t2") |})
    (with_outstandingMessages 0 (exec stop (exec (iframeLoaded 1000100) world_waiting))).
Proof.
  assert (Hrecorded :
            is_Some (scheduledHeartBeatRunning
                       (svc (exec (start "t1" 1000200) world_stopped))))
    by (vm_compute; eauto).
  assert (Hhandler : is_Some (iframe (host world_waiting) ≫= onload))
    by (vm_compute; eauto).
  assert (Hwindow : 1000100 + iframeRefreshInterval > 1000200)
    by (vm_compute; reflexivity).
  refine (conj Hrecorded (conj _ (conj Hhandler (conj Hwindow _)))).
  - exact (proj1 (C7_one_monitor_state_for_all_tenants
                    "t1" "t2" 1000200 1000300 0 changedFromIdp world_stopped) Hrecorded).
  - exact (proj1 (proj2 (C7_one_monitor_state_for_all_tenants
                           "t1" "t2" 0 1000200 1000100 changedFromIdp world_waiting))
             Hhandler Hwindow).
Defined.

(** ** C8 *)

(** Four ticks driven by the timers, with no message in between: the
    third leaves the log without an error, the fourth adds one. *)
Example four_unanswered_ticks :
  let three :=
    run [TimerFired 1%positive 1003100; TimerFired 2%positive 1006100] world_running in
  let four := run [TimerFired 3%positive 1009100] three in
  outstandingMessages (svc three) = 3 /\ errorsLogged three = 0%nat /\
  outstandingMessages (svc four) = 4 /\ errorsLogged four = 1%nat /\
  scheduledHeartBeatRunning (svc four) = Some 4%positive.
Proof.
  vm_compute. repeat split; reflexivity.
Qed.

(** One beat past the refresh window: the timer fires, the iframe is sent
    to reload, the load event runs the tick. *)
Example beat_past_the_refresh_window :
  let w := beat (1070000, 1070100) world_running in
  outstandingMessages (svc w) = 2 /\
  lastIFrameRefresh (svc w) = 1070100 /\
  scheduledHeartBeatRunning (svc w) = Some 2%positive /\
  pendingLoad w = false.
Proof.
  vm_compute. repeat split; reflexivity.
Qed.

(** [start], its first tick and three beats: the fourth tick logs the
    first error. *)
Example first_error_with_the_fourth_tick :
  let three :=
    beats [(1003100, 1003200); (1006100, 1006200)]
      (firstBeat "t1" (1000000, 1000100) scenarioWorld_bothKeys) in
  let four := beat (1009100, 1009200) three in
  outstandingMessages (svc three) = 3 /\ errorsLogged three = 0%nat /\
  outstandingMessages (svc four) = 4 /\ errorsLogged four = 1%nat.
Proof.
  vm_compute. repeat split; reflexivity.
Qed.

(** C8 fails on the code: six ticks have sent their probes and no valid
    message has come in -- the only traffic is from another origin and
    another window, and no event has been fired for it -- yet no error is
    logged: each of these messages has set the counter back. *)
Lemma C8_counterexample_untrusted_messages_keep_the_error_away :
  let noise := MessageReceived changedFromElsewhere in
  let w :=
    run [noise; TimerFired 1%positive 1003100; noise; TimerFired 2%positive 1006100;
         noise; TimerFired 3%positive 1009100; noise; TimerFired 4%positive 1012100;
         noise; TimerFired 5%positive 1015100] world_running in
  originAccepted (JsMessageEvent changedFromElsewhere) (JsString "t1") world_running = false /\
  firedEvents (host w) = [] /\
  checkSessionReceived (svc w) = false /\
  length (posted (host w)) = 6%nat /\
  outstandingMessages (svc w) = 1 /\
  errorsLogged w = 0%nat.
Proof.
  vm_compute. repeat split; reflexivity.
Qed.

Lemma C8_witness :
  scheduledHeartBeatRunning (svc scenarioWorld_bothKeys) = None /\
  pendingLoad scenarioWorld_bothKeys = false /\
  (lastIFrameRefresh (svc scenarioWorld_bothKeys) + iframeRefreshInterval > 1000000 ->
   is_Some (iframe (host scenarioWorld_bothKeys))) /\
  truthy (Some "t1") = true /\
  truthy (tick_sessionState scenarioClosure scenarioWorld_bothKeys) = true /\
  truthy (tick_checkSessionIframe scenarioClosure scenarioWorld_bothKeys) = true /\
  is_Some (URL_origin (default EmptyString
             (tick_checkSessionIframe scenarioClosure scenarioWorld_bothKeys))) /\
  outstandingMessages
    (svc (beat (1009100, 1009200)
            (beats [(1003100, 1003200); (1006100, 1006200)]
               (firstBeat "t1" (1000000, 1000100) scenarioWorld_bothKeys)))) =
  Z.of_nat 4.
Proof.
  assert (Hnone : scheduledHeartBeatRunning (svc scenarioWorld_bothKeys) = None)
    by reflexivity.
  assert (Hidle : pendingLoad scenarioWorld_bothKeys = false) by reflexivity.
  assert (Hframe :
            lastIFrameRefresh (svc scenarioWorld_bothKeys) + iframeRefreshInterval > 1000000 ->
            is_Some (iframe (host scenarioWorld_bothKeys)))
    by (intros Hwindow; vm_compute in Hwindow; discriminate Hwindow).
  assert (Hclient : truthy (Some "t1") = true) by reflexivity.
  assert (Hstate : truthy (tick_sessionState scenarioClosure scenarioWorld_bothKeys) = true)
    by (vm_compute; reflexivity).
  assert (Hurl : truthy (tick_checkSessionIframe scenarioClosure scenarioWorld_bothKeys) = true)
    by (vm_compute; reflexivity).
  assert (Horigin : is_Some (URL_origin (default EmptyString
                      (tick_checkSessionIframe scenarioClosure scenarioWorld_bothKeys))))
    by (vm_compute; eauto).
  refine (conj Hnone (conj Hidle (conj Hframe (conj Hclient (conj Hstate
            (conj Hurl (conj Horigin _))))))).
  exact (proj1 (proj2 (proj2 (proj2
    (C8_unanswered_beats_log_from_the_fourth_tick
       "t1" (1000000, 1000100) [(1003100, 1003200); (1006100, 1006200)] (1009100, 1009200)
       scenarioWorld_bothKeys Hnone Hidle Hframe Hclient Hstate Hurl Horigin))))).
Defined.

(** ** C9 *)

Lemma C9_witness :
  scheduledHeartBeatRunning (svc world_running) = Some 1%positive /\
  start "t1" 1000200 world_running = (Returned tt, world_running).
Proof.
  assert (Hrunning : scheduledHeartBeatRunning (svc world_running) = Some 1%positive)
    by (vm_compute; reflexivity).
  refine (conj Hrunning _).
  exact (proj1 (C9_start_is_idempotent_while_running
                  "t1" 1000200 1000300 world_running 1%positive Hrunning)).
Defined.

(** ** C10 *)

Lemma C10_witness :
  scheduledHeartBeatRunning (svc scenarioWorld_bothKeys) = None /\
  lastIFrameRefresh (svc scenarioWorld_bothKeys) + iframeRefreshInterval <= 1000000 /\
  storedEndpoints (host scenarioWorld_bothKeys) !! "abc" = Some idpEndpoints /\
  (forall url, checkSessionIframe idpEndpoints = Some url -> is_Some (URL_origin url)) /\
  stop (exec (start "t1" 1000000) scenarioWorld_bothKeys) =
  (Returned tt, exec (start "t1" 1000000) scenarioWorld_bothKeys) /\
  scheduledHeartBeatRunning
    (svc (exec (iframeLoaded 1000100)
            (exec stop (exec (start "t1" 1000000) scenarioWorld_bothKeys)))) =
  Some (nextHandle (host scenarioWorld_bothKeys)).
Proof.
  assert (Hidle : scheduledHeartBeatRunning (svc scenarioWorld_bothKeys) = None)
    by reflexivity.
  assert (Helapsed :
            lastIFrameRefresh (svc scenarioWorld_bothKeys) + iframeRefreshInterval <= 1000000)
    by (vm_compute; discriminate).
  assert (Hstored : storedEndpoints (host scenarioWorld_bothKeys) !! "abc" = Some idpEndpoints)
    by (vm_compute; reflexivity).
  assert (Hurl : forall url, checkSessionIframe idpEndpoints = Some url ->
                             is_Some (URL_origin url)).
  { intros url Heq. injection Heq as <-. vm_compute. eauto. }
  pose proof (C10_stop_before_first_handle_leaves_loop_alive
                "t1" 1000000 1000100 scenarioWorld_bothKeys idpEndpoints
                Hidle Helapsed Hstored Hurl) as (_ & _ & Hstop & Hhandle & _ & _).
  exact (conj Hidle (conj Helapsed (conj Hstored (conj Hurl (conj Hstop Hhandle))))).
Defined.

(** * Further scenarios, evaluated *)

Example world_reloading_frame : iframe (host world_reloading) = Some frame_waiting.
Proof. vm_compute. reflexivity. Qed.

Example world_reloading_service :
  scheduledHeartBeatRunning (svc world_reloading) = Some 1%positive /\
  timers (host world_reloading) = ∅.
Proof. vm_compute. split; reflexivity. Qed.

Lemma stop_cancels_the_recorded_timer_witness :
  scheduledHeartBeatRunning (svc world_running) = Some 1%positive /\
  timers (host (exec stop world_running)) = delete 1%positive (timers (host world_running)).
Proof.
  assert (Hh : scheduledHeartBeatRunning (svc world_running) = Some 1%positive)
    by (vm_compute; reflexivity).
  refine (conj Hh _).
  exact (proj1 (proj2 (proj2 (proj2
    (stop_cancels_the_recorded_timer world_running 1%positive Hh))))).
Defined.

Lemma trusted_error_is_only_logged_witness :
  trusted (JsMessageEvent errorFromIdp) (JsString "t1") world_running = true /\
  get_data (JsMessageEvent errorFromIdp) = Some "error" /\
  messageHandler (JsMessageEvent errorFromIdp) (JsString "t1") world_running =
  (Returned tt,
   with_log LevelWarning (JsString "t1") HandlerError
     (with_outstandingMessages 0 world_running)).
Proof.
  assert (Htrusted :
            trusted (JsMessageEvent errorFromIdp) (JsString "t1") world_running = true)
    by (vm_compute; reflexivity).
  assert (Hdata : get_data (JsMessageEvent errorFromIdp) = Some "error") by reflexivity.
  refine (conj Htrusted (conj Hdata _)).
  exact (proj1 (trusted_error_is_only_logged _ _ world_running Htrusted Hdata)).
Defined.

Lemma trusted_other_payload_is_forwarded_witness :
  trusted (JsMessageEvent unchangedFromIdp) (JsString "t1") world_running = true /\
  get_data (JsMessageEvent unchangedFromIdp) <> Some "error" /\
  get_data (JsMessageEvent unchangedFromIdp) <> Some "changed" /\
  firedEvents
    (host (exec (messageHandler (JsMessageEvent unchangedFromIdp) (JsString "t1"))
             world_running)) =
  (firedEvents (host world_running) ++ [get_data (JsMessageEvent unchangedFromIdp)])%list.
Proof.
  assert (Htrusted :
            trusted (JsMessageEvent unchangedFromIdp) (JsString "t1") world_running = true)
    by (vm_compute; reflexivity).
  assert (Herror : get_data (JsMessageEvent unchangedFromIdp) <> Some "error")
    by (cbn; discriminate).
  assert (Hchanged : get_data (JsMessageEvent unchangedFromIdp) <> Some "changed")
    by (cbn; discriminate).
  refine (conj Htrusted (conj Herror (conj Hchanged _))).
  exact (proj1 (proj2
    (trusted_other_payload_is_forwarded _ _ world_running Htrusted Herror Hchanged))).
Defined.

Lemma tick_without_iframe_or_clientId_only_warns_witness :
  (iframe (host scenarioWorld_bothKeys) = None \/
   cl_clientId scenarioClosure = EmptyString) /\
  posted (host (exec (pollServerSessionNext scenarioClosure) scenarioWorld_bothKeys)) =
  posted (host scenarioWorld_bothKeys).
Proof.
  assert (Hmissing : iframe (host scenarioWorld_bothKeys) = None \/
                     cl_clientId scenarioClosure = EmptyString)
    by (left; reflexivity).
  refine (conj Hmissing _).
  exact (proj1 (proj2 (proj2
    (tick_without_iframe_or_clientId_only_warns
       scenarioClosure scenarioWorld_bothKeys Hmissing)))).
Defined.

Lemma tick_with_rejected_URL_ends_the_loop_witness :
  sendsProbe scenarioClosure world_loaded_badURL = true /\
  URL_origin (default EmptyString
                (tick_checkSessionIframe scenarioClosure world_loaded_badURL)) = None /\
  lastIFrameRefresh (svc world_loaded_badURL) + iframeRefreshInterval > 1000200 /\
  timers (host (exec (pollServerSessionRecur scenarioClosure 1000200) world_loaded_badURL)) =
  timers (host world_loaded_badURL).
Proof.
  assert (Hsends : sendsProbe scenarioClosure world_loaded_badURL = true)
    by (vm_compute; reflexivity).
  assert (Hnone : URL_origin (default EmptyString
                    (tick_checkSessionIframe scenarioClosure world_loaded_badURL)) = None)
    by (vm_compute; reflexivity).
  assert (Hwindow :
            lastIFrameRefresh (svc world_loaded_badURL) + iframeRefreshInterval > 1000200)
    by (vm_compute; reflexivity).
  refine (conj Hsends (conj Hnone (conj Hwindow _))).
  destruct (tick_with_rejected_URL_ends_the_loop
              scenarioClosure 1000200 world_loaded_badURL Hsends Hnone Hwindow)
    as (_ & _ & _ & _ & _ & Htimers).
  exact Htimers.
Defined.

Lemma tick_inside_refresh_window_leaves_iframe_witness :
  lastIFrameRefresh (svc world_running) + iframeRefreshInterval > 1003100 /\
  iframe (host (exec (pollServerSessionRecur scenarioClosure 1003100) world_running)) =
  iframe (host world_running).
Proof.
  assert (Hwindow : lastIFrameRefresh (svc world_running) + iframeRefreshInterval > 1003100)
    by (vm_compute; reflexivity).
  refine (conj Hwindow _).
  exact (proj1 (tick_inside_refresh_window_leaves_iframe
                  scenarioClosure 1003100 world_running Hwindow)).
Defined.

Lemma tick_past_refresh_window_reloads_iframe_witness :
  lastIFrameRefresh (svc scenarioWorld_bothKeys) + iframeRefreshInterval <= 1000000 /\
  storedEndpoints (host scenarioWorld_bothKeys) !! cl_configId scenarioClosure
  = Some idpEndpoints /\
  svc (exec (pollServerSessionRecur scenarioClosure 1000000) scenarioWorld_bothKeys) =
  svc scenarioWorld_bothKeys.
Proof.
  assert (Helapsed :
            lastIFrameRefresh (svc scenarioWorld_bothKeys) + iframeRefreshInterval <= 1000000)
    by (vm_compute; discriminate).
  assert (Hstored :
            storedEndpoints (host scenarioWorld_bothKeys) !! cl_configId scenarioClosure
            = Some idpEndpoints)
    by (vm_compute; reflexivity).
  refine (conj Helapsed (conj Hstored _)).
  exact (proj1 (tick_past_refresh_window_reloads_iframe
                  scenarioClosure 1000000 scenarioWorld_bothKeys idpEndpoints
                  Helapsed Hstored)).
Defined.

Lemma second_load_event_only_writes_refresh_time_witness :
  iframe (host world_waiting) = Some frame_waiting /\
  onload frame_waiting = Some {| subscriber := scenarioClosure; stopped := false |} /\
  iframeLoaded 1000500 (exec (iframeLoaded 1000100) world_waiting) =
  (Returned tt, with_lastIFrameRefresh 1000500 (exec (iframeLoaded 1000100) world_waiting)).
Proof.
  assert (Hframe : iframe (host world_waiting) = Some frame_waiting)
    by (vm_compute; reflexivity).
  assert (Hload : onload frame_waiting =
                  Some {| subscriber := scenarioClosure; stopped := false |})
    by reflexivity.
  refine (conj Hframe (conj Hload _)).
  exact (second_load_event_only_writes_refresh_time
           world_waiting frame_waiting scenarioClosure 1000100 1000500 Hframe Hload).
Defined.

Lemma stop_while_waiting_for_load_does_not_end_loop_witness :
  iframe (host world_reloading) = Some frame_waiting /\
  onload frame_waiting = Some {| subscriber := scenarioClosure; stopped := false |} /\
  (sendsProbe scenarioClosure world_reloading = true ->
   is_Some (URL_origin (default EmptyString
              (tick_checkSessionIframe scenarioClosure world_reloading)))) /\
  scheduledHeartBeatRunning (svc (exec stop world_reloading)) = None /\
  scheduledHeartBeatRunning
    (svc (exec (iframeLoaded 1070100) (exec stop world_reloading))) =
  Some (nextHandle (host world_reloading)).
Proof.
  assert (Hframe : iframe (host world_reloading) = Some frame_waiting)
    by (vm_compute; reflexivity).
  assert (Hload : onload frame_waiting =
                  Some {| subscriber := scenarioClosure; stopped := false |})
    by reflexivity.
  assert (Hurl : sendsProbe scenarioClosure world_reloading = true ->
                 is_Some (URL_origin (default EmptyString
                            (tick_checkSessionIframe scenarioClosure world_reloading))))
    by (intros _; vm_compute; eauto).
  destruct (stop_while_waiting_for_load_does_not_end_loop
              world_reloading frame_waiting scenarioClosure 1070100 Hframe Hload Hurl)
    as (Hstopped & _ & Hhandle & _).
  exact (conj Hframe (conj Hload (conj Hurl (conj Hstopped Hhandle)))).
Defined.

Lemma fired_timer_leaves_its_handle_recorded_witness :
  timers (host world_running) !! 1%positive =
    Some {| delay := heartBeatInterval; callback := scenarioClosure |} /\
  scheduledHeartBeatRunning (svc world_running) = Some 1%positive /\
  lastIFrameRefresh (svc world_running) + iframeRefreshInterval <= 1070000 /\
  storedEndpoints (host world_running) !! cl_configId scenarioClosure = Some idpEndpoints /\
  scheduledHeartBeatRunning (svc (exec (timerFired 1%positive 1070000) world_running)) =
  Some 1%positive.
Proof.
  assert (Hpending : timers (host world_running) !! 1%positive =
                     Some {| delay := heartBeatInterval; callback := scenarioClosure |})
    by (vm_compute; reflexivity).
  assert (Hh : scheduledHeartBeatRunning (svc world_running) = Some 1%positive)
    by (vm_compute; reflexivity).
  assert (Helapsed : lastIFrameRefresh (svc world_running) + iframeRefreshInterval <= 1070000)
    by (vm_compute; discriminate).
  assert (Hstored : storedEndpoints (host world_running) !! cl_configId scenarioClosure
                    = Some idpEndpoints)
    by (vm_compute; reflexivity).
  refine (conj Hpending (conj Hh (conj Helapsed (conj Hstored _)))).
  exact (proj1 (fired_timer_leaves_its_handle_recorded
                  world_running 1%positive _ 1070000 idpEndpoints
                  Hpending Hh Helapsed Hstored)).
Defined.

Lemma serverStateChanged_stays_false_along_any_run_witness :
  checkSessionReceived (svc scenarioWorld_bothKeys) = false /\
  fst (serverStateChanged "t1"
         (run [Call_start "t1" 1000000; IframeLoaded 1000100;
               MessageReceived changedFromIdp] scenarioWorld_bothKeys)) = Returned false.
Proof.
  assert (Hflag : checkSessionReceived (svc scenarioWorld_bothKeys) = false) by reflexivity.
  refine (conj Hflag _).
  exact (proj2 (serverStateChanged_stays_false_along_any_run _ "t1" _ Hflag)).
Defined.

Lemma one_listener_for_the_one_iframe_witness :
  listenersMatchFrame scenarioWorld_bothKeys /\
  listenersMatchFrame
    (run [Call_start "t1" 1000000; Call_stop; Call_start "t1" 1000050;
          IframeLoaded 1000100] scenarioWorld_bothKeys).
Proof.
  assert (Hmatch : listenersMatchFrame scenarioWorld_bothKeys) by reflexivity.
  refine (conj Hmatch _).
  exact (proj1 (one_listener_for_the_one_iframe _ _ Hmatch)).
Defined.

Lemma only_the_load_event_writes_lastIFrameRefresh_witness :
  (forall now, TimerFired 1%positive 1003100 <> IframeLoaded now) /\
  lastIFrameRefresh (svc (exec (step (TimerFired 1%positive 1003100)) world_running)) =
  lastIFrameRefresh (svc world_running).
Proof.
  assert (Hother : forall now, TimerFired 1%positive 1003100 <> IframeLoaded now)
    by (intros now Heq; discriminate Heq).
  refine (conj Hother _).
  exact (only_the_load_event_writes_lastIFrameRefresh _ world_running Hother).
Defined.

Lemma any_handled_message_defers_the_error_witness :
  sendsProbe scenarioClosure world_running = true /\
  is_Some (URL_origin (default EmptyString
             (tick_checkSessionIframe scenarioClosure world_running))) /\
  errorsLogged
    (ticks scenarioClosure 3
       (exec (messageHandler (JsMessageEvent changedFromElsewhere) (JsString "t1"))
          world_running)) =
  (errorsLogged world_running + (3 - 3))%nat.
Proof.
  assert (Hsends : sendsProbe scenarioClosure world_running = true)
    by (vm_compute; reflexivity).
  assert (Hurl : is_Some (URL_origin (default EmptyString
                   (tick_checkSessionIframe scenarioClosure world_running))))
    by (vm_compute; eauto).
  refine (conj Hsends (conj Hurl _)).
  exact (proj2 (any_handled_message_defers_the_error
                  (JsMessageEvent changedFromElsewhere) (JsString "t1")
                  scenarioClosure world_running 3 Hsends Hurl)).
Defined.

Lemma never_two_heartbeat_loops_witness :
  oneLoop 0 scenarioWorld_bothKeys /\
  chronological 0
    [Call_start "t1" 1000000; Call_stop; Call_start "t1" 1000050;
     IframeLoaded 1000100; TimerFired 1%positive 1003100] /\
  (pendingLoad
     (run [Call_start "t1" 1000000; Call_stop; Call_start "t1" 1000050;
           IframeLoaded 1000100; TimerFired 1%positive 1003100] scenarioWorld_bothKeys)
   = true ->
   timers
     (host (run [Call_start "t1" 1000000; Call_stop; Call_start "t1" 1000050;
                 IframeLoaded 1000100; TimerFired 1%positive 1003100]
              scenarioWorld_bothKeys)) = ∅).
Proof.
  assert (Hone : oneLoop 0 scenarioWorld_bothKeys).
  { split; [intros Hp; discriminate Hp|left; reflexivity]. }
  assert (Hchrono :
            chronological 0
              [Call_start "t1" 1000000; Call_stop; Call_start "t1" 1000050;
               IframeLoaded 1000100; TimerFired 1%positive 1003100]).
  { cbn. lia. }
  refine (conj Hone (conj Hchrono _)).
  exact (proj2 (never_two_heartbeat_loops _ 0 scenarioWorld_bothKeys Hone Hchrono)).
Defined.

Lemma stop_then_start_restarts_at_once_witness :
  scheduledHeartBeatRunning (svc world_running) = Some 1%positive /\
  lastIFrameRefresh (svc world_running) + iframeRefreshInterval > 1000200 /\
  iframe (host world_running) = Some frame_loaded /\
  sendsProbe scenarioClosure world_running = true /\
  URL_origin (default EmptyString (tick_checkSessionIframe scenarioClosure world_running))
  = Some "https://idp.example" /\
  outstandingMessages (svc (exec (start "t1" 1000200) (exec stop world_running))) = 1.
Proof.
  assert (Hh : scheduledHeartBeatRunning (svc world_running) = Some 1%positive)
    by (vm_compute; reflexivity).
  assert (Hwindow : lastIFrameRefresh (svc world_running) + iframeRefreshInterval > 1000200)
    by (vm_compute; reflexivity).
  assert (Hframe : iframe (host world_running) = Some frame_loaded)
    by (vm_compute; reflexivity).
  assert (Hsends : sendsProbe scenarioClosure world_running = true)
    by (vm_compute; reflexivity).
  assert (Horigin :
            URL_origin (default EmptyString
                          (tick_checkSessionIframe scenarioClosure world_running))
            = Some "https://idp.example")
    by (vm_compute; reflexivity).
  refine (conj Hh (conj Hwindow (conj Hframe (conj Hsends (conj Horigin _))))).
  exact (proj1 (stop_then_start_restarts_at_once
                  "t1" 1000200 world_running 1%positive frame_loaded "https://idp.example"
                  Hh Hwindow Hframe Hsends Horigin)).
Defined.
